(** * Button models of the sun widget library

    A shallow embedding of the interaction models of the sun buttons
    (PushButtonModel, StickyToggleButtonModel, the experimental
    ToggleButtonModel), of the appearance strategies of RectangularButton
    and of the option validation done by the widget constructors, and of
    the stateful parts of ButtonListener, AquaRadioButton, Dialog, Panel,
    ABSwitch, ComboBox and Slider, followed by the properties established
    about them.

    Conventions of the embedding.
    - An axon [Property] is a field of the model record.  [Property.set]
      stores the new value and then notifies the linked listeners, and does
      nothing at all when the new value equals the current one;
      [Property.link] registers a listener and calls it once with the
      current value.  Each setter below is written in that shape.
    - A JavaScript function used as a listener is compared by identity
      ([indexOf], [===]); listeners are therefore natural-number identities
      and their code is looked up in an environment [body].
    - Every call of a model's [fire] is recorded in a log, so that theorems
      can talk about how often and from where [fire] was called.
    - PushButtonModel is embedded twice: with listeners that touch nothing
      of the model but its list of listeners, where every step returns and
      no fuel is needed, and, in PushButtonReentrancy, with listeners that
      set the properties of the model and call [fire], where the nesting
      is bounded by fuel.  The first is the second restricted to such
      listeners. *)

From Stdlib Require Import ZArith QArith Qminmax Qabs Lqa Lia Bool.
From stdpp Require Import base list strings pretty.

Local Open Scope Z_scope.

(* ===================================================================== *)
(** * Part I: definitions                                                 *)
(* ===================================================================== *)

(** ** Outcomes of code that can throw

    A call either returns, or throws the error of a failed [assert], or
    throws an [Error] of its own, or (in the model only) runs out of the
    fuel that bounds re-entrant listener notification. *)

Inductive result (A : Type) : Type :=
| Ok (a : A)
| AssertionFailed (msg : string)
| Thrown (msg : string)
| OutOfFuel.

Arguments Ok {A} a.
Arguments AssertionFailed {A} msg.
Arguments Thrown {A} msg.
Arguments OutOfFuel {A}.

Definition bind {A B : Type} (k : A -> result B) (r : result A) : result B :=
  match r with
  | Ok a => k a
  | AssertionFailed msg => AssertionFailed msg
  | Thrown msg => Thrown msg
  | OutOfFuel => OutOfFuel
  end.

(** The sequencing notation [x ← r; k] of stdpp, at [result]. *)
#[global] Instance result_bind : MBind result := @bind.
#[global] Instance result_ret : MRet result := @Ok.

(** [assert && assert( cond, msg )]: checked only when the global [assert]
    is defined, that is when assertions are enabled. *)
Definition assert (assertions : bool) (cond : bool) (msg : string) : result unit :=
  if assertions && negb cond then AssertionFailed msg else Ok tt.

Definition isOk {A : Type} (r : result A) : bool :=
  match r with Ok _ => true | _ => false end.

Definition isAssertionFailed {A : Type} (r : result A) : bool :=
  match r with AssertionFailed _ => true | _ => false end.

(** A loop whose body can throw: the first failure ends it. *)
Fixpoint foldM {A B : Type} (f : A -> B -> result A) (bs : list B) (a : A)
    : result A :=
  match bs with
  | [] => Ok a
  | b :: rest => a' ← f a b; foldM f rest a'
  end.

(** ** PushButtonModel (SUN/buttons/PushButtonModel) *)

Module PushButtonModel.

(** Identity of a listener function. *)
Definition Listener := nat.

(** What the code of a listener does to the model it is registered on, for
    listeners that touch nothing of the model but its list of listeners:
    the two public registration methods.  Listeners that also write the
    properties of the model or call [fire] are the subject of
    PushButtonReentrancy below, of which this module is the special case
    (see [step_of_list_only_listeners] in Part II). *)
Inductive Cmd : Type :=
| CallAddListener (l : Listener)
| CallRemoveListener (l : Listener).

(** The options of the constructor, after [_.extend] with the defaults. *)
Record Options : Type := mkOptions {
  fireOnDown : bool;
  listener : option Listener;
  fireOnHold : bool;
  fireOnHoldDelay : Z;
  fireOnHoldInterval : Z
}.

Definition defaultOptions : Options :=
  {| fireOnDown := false; listener := None; fireOnHold := false;
     fireOnHoldDelay := 400; fireOnHoldInterval := 100 |}.

(** Modelled from the spec: CallbackTimer (SUN/CallbackTimer) is not among
    the sources.  The spec says that fire-on-hold repeats fire() at a
    configured delay and interval while the button is held and is
    cancelled on release or disable; the calls in PushButtonModel add that
    [stop( fire )] stops the timer and fires once if asked to and the
    timer has not fired yet.  The timer is idle, or waits for its initial
    delay, or waits for the next interval; a timer that is not running
    ignores [stop]. *)
Inductive TimerPhase : Type := Idle | DelayPending | IntervalPending.

(** Modelled from the spec: the state of a CallbackTimer, its two configured
    times in milliseconds, what it waits for, and whether it has fired
    since it was started. *)
Record CallbackTimer : Type := mkTimer {
  delay : Z;
  interval : Z;
  pending : TimerPhase;
  fired : bool
}.

(** Modelled from the spec: CallbackTimer.isRunning. *)
Definition isRunning (t : CallbackTimer) : bool :=
  match pending t with Idle => false | _ => true end.

(** Where a call of [fire] comes from: a direct call ([self.fire()] in the
    down listener, or the public method), or the timer's callback. *)
Inductive FireSource : Type := FromModel | FromTimer.

(** Modelled from the spec: ButtonModel (SUN/buttons/ButtonModel), the base
    type, is not among the sources.  The spec gives it the boolean flags
    over, down and enabled; a new button is idle (not over, not down,
    enabled). *)
Record Model : Type := mkModel {
  options : Options;
  over : bool;
  down : bool;
  enabled : bool;
  listeners : list Listener;
  timer : option CallbackTimer;
  fireLog : list FireSource;   (* one entry per call of fire *)
  callLog : list Listener      (* one entry per listener invocation *)
}.

Definition set_over (b : bool) (m : Model) : Model :=
  mkModel (options m) b (down m) (enabled m) (listeners m) (timer m)
          (fireLog m) (callLog m).
Definition set_down (b : bool) (m : Model) : Model :=
  mkModel (options m) (over m) b (enabled m) (listeners m) (timer m)
          (fireLog m) (callLog m).
Definition set_enabled (b : bool) (m : Model) : Model :=
  mkModel (options m) (over m) (down m) b (listeners m) (timer m)
          (fireLog m) (callLog m).
Definition set_listeners (ls : list Listener) (m : Model) : Model :=
  mkModel (options m) (over m) (down m) (enabled m) ls (timer m)
          (fireLog m) (callLog m).
Definition set_timer (t : option CallbackTimer) (m : Model) : Model :=
  mkModel (options m) (over m) (down m) (enabled m) (listeners m) t
          (fireLog m) (callLog m).
Definition log_fire (s : FireSource) (m : Model) : Model :=
  mkModel (options m) (over m) (down m) (enabled m) (listeners m) (timer m)
          (fireLog m ++ [s]) (callLog m).
Definition log_call (l : Listener) (m : Model) : Model :=
  mkModel (options m) (over m) (down m) (enabled m) (listeners m) (timer m)
          (fireLog m) (callLog m ++ [l]).

(** [Array.prototype.indexOf]: the first index holding [l], or -1. *)
Fixpoint indexOfFrom (l : Listener) (ls : list Listener) (i : Z) : Z :=
  match ls with
  | [] => -1
  | x :: xs => if Nat.eqb x l then i else indexOfFrom l xs (i + 1)
  end.

Definition indexOf (l : Listener) (ls : list Listener) : Z :=
  indexOfFrom l ls 0.

(** [addListener]: push unless already there. *)
Definition addListener (l : Listener) (m : Model) : Model :=
  if indexOf l (listeners m) =? -1
  then set_listeners (listeners m ++ [l]) m
  else m.

(** [removeListener]: [splice( i, 1 )] at the index found, if any. *)
Definition removeListener (l : Listener) (m : Model) : Model :=
  let i := indexOf l (listeners m) in
  if negb (i =? -1)
  then set_listeners (delete (Z.to_nat i) (listeners m)) m
  else m.

Section WithListenerCode.

(** The code of each listener function. *)
Variable body : Listener -> list Cmd.

Definition exec (m : Model) (c : Cmd) : Model :=
  match c with
  | CallAddListener l => addListener l m
  | CallRemoveListener l => removeListener l m
  end.

(** One call [listener()]. *)
Definition invoke (m : Model) (l : Listener) : Model :=
  fold_left exec (body l) (log_call l m).

(** [fire]: iterate over a copy of the listener array taken on entry.
    (The two phet-io emitters around the loop have no listeners in this
    model.) *)
Definition fire (s : FireSource) (m : Model) : Model :=
  let copy := listeners m in
  fold_left invoke copy (log_fire s m).

(** Modelled from the spec: CallbackTimer.fire runs the callback, which
    PushButtonModel sets to its own [fire] bound to the model, and remembers
    that the timer has fired. *)
Definition timer_fire (m : Model) : Model :=
  let m' := fire FromTimer m in
  match timer m' with
  | Some t => set_timer (Some (mkTimer (delay t) (interval t) (pending t) true)) m'
  | None => m'
  end.

(** Modelled from the spec: CallbackTimer.start begins the initial delay; a
    running timer is left alone. *)
Definition timer_start (m : Model) : Model :=
  match timer m with
  | Some t =>
      if isRunning t then m
      else set_timer (Some (mkTimer (delay t) (interval t) DelayPending false)) m
  | None => m
  end.

(** Modelled from the spec: CallbackTimer.stop( fire ) cancels what is
    pending and, if [fire] is set and the timer has not fired since it was
    started, fires once. *)
Definition timer_stop (f : bool) (m : Model) : Model :=
  match timer m with
  | Some t =>
      if isRunning t then
        let m1 := set_timer (Some (mkTimer (delay t) (interval t) Idle (fired t))) m in
        if f && negb (fired t) then timer_fire m1 else m1
      else m
  | None => m
  end.

(** Modelled from the spec: the host dispatches the pending timeout (end of
    the delay) or the pending interval callback of a running timer: from
    then on the interval is pending, and the timer fires.  Nothing is
    dispatched for a timer that is not running. *)
Definition timer_tick (m : Model) : Model :=
  match timer m with
  | Some t =>
      if isRunning t then
        timer_fire (set_timer (Some (mkTimer (delay t) (interval t) IntervalPending (fired t))) m)
      else m
  | None => m
  end.

(** The listener linked to [downProperty]. *)
Definition downListener (d : bool) (m : Model) : Model :=
  if d then
    if enabled m then
      let m1 := if fireOnDown (options m) then fire FromModel m else m in
      match timer m1 with
      | Some _ => timer_start m1
      | None => m1
      end
    else m
  else
    let f := negb (fireOnDown (options m)) && over m && enabled m in
    match timer m with
    | Some _ => timer_stop f m
    | None => if f then fire FromModel m else m
    end.

(** The listener linked to [enabledProperty]. *)
Definition enabledListener (e : bool) (m : Model) : Model :=
  if negb e then
    match timer m with
    | Some _ => timer_stop false m
    | None => m
    end
  else m.

(** The three setters of the model, each a [Property.set]. *)
Definition setOver (b : bool) (m : Model) : Model :=
  if Bool.eqb (over m) b then m else set_over b m.

Definition setDown (b : bool) (m : Model) : Model :=
  if Bool.eqb (down m) b then m else downListener b (set_down b m).

Definition setEnabled (b : bool) (m : Model) : Model :=
  if Bool.eqb (enabled m) b then m else enabledListener b (set_enabled b m).

(** [new PushButtonModel( options )]. *)
Definition new (o : Options) : Model :=
  let m0 :=
    {| options := o; over := false; down := false; enabled := true;
       listeners := match listener o with Some l => [l] | None => [] end;
       timer := if fireOnHold o
                then Some (mkTimer (fireOnHoldDelay o) (fireOnHoldInterval o) Idle false)
                else None;
       fireLog := []; callLog := [] |} in
  let m1 := downListener (down m0) m0 in
  enabledListener (enabled m1) m1.

(** What can happen to a model after its construction. *)
Inductive Op : Type :=
| SetOver (b : bool)
| SetDown (b : bool)
| SetEnabled (b : bool)
| AddListener (l : Listener)
| RemoveListener (l : Listener)
| Fire
| Tick.

Definition step (m : Model) (op : Op) : Model :=
  match op with
  | SetOver b => setOver b m
  | SetDown b => setDown b m
  | SetEnabled b => setEnabled b m
  | AddListener l => addListener l m
  | RemoveListener l => removeListener l m
  | Fire => fire FromModel m
  | Tick => timer_tick m
  end.

Definition run (m : Model) (ops : list Op) : Model := fold_left step ops m.

End WithListenerCode.

Definition timerRunning (m : Model) : bool :=
  match timer m with Some t => isRunning t | None => false end.

Definition isFromTimer (s : FireSource) : bool :=
  match s with FromTimer => true | FromModel => false end.

(** How often the timer has called [fire] so far. *)
Definition timerFires (m : Model) : nat :=
  length (List.filter isFromTimer (fireLog m)).

(** Two models that differ at most in their listener list and call log. *)
Definition sameButton (m m' : Model) : Prop :=
  options m' = options m /\ over m' = over m /\ down m' = down m /\
  enabled m' = enabled m /\ timer m' = timer m /\ fireLog m' = fireLog m.

(** The claim about when a model without the fire-on-hold feature fires, in
    its own words: with fireOnDown, on a down-transition while enabled;
    without it, on an up-transition while over and enabled.  The public
    [fire] always fires; nothing else does. *)
Definition spec_fires (o : Options) (op : Op) (m : Model) : bool :=
  match op with
  | SetDown true => fireOnDown o && negb (down m) && enabled m
  | SetDown false => negb (fireOnDown o) && down m && over m && enabled m
  | Fire => true
  | _ => false
  end.

End PushButtonModel.

(** ** PushButtonInteractionStateProperty *)

Module PushButtonInteractionStateProperty.

Import PushButtonModel.

Inductive ButtonInteractionState : Type :=
| IDLE | OVER | PRESSED | DISABLED | DISABLED_PRESSED.

(** Modelled from the spec: PushButtonInteractionStateProperty
    (SUN/buttons/PushButtonInteractionStateProperty) is not among the
    sources.  The spec makes the interaction state a derived value of the
    tuple (over, down, enabled) with values IDLE, OVER, PRESSED, DISABLED and
    DISABLED_PRESSED, the DISABLED states being those of a disabled button. *)
Definition derivation (over down enabled : bool) : ButtonInteractionState :=
  if negb enabled then (if down then DISABLED_PRESSED else DISABLED)
  else if over && negb down then OVER
  else if over && down then PRESSED
  else IDLE.

Definition derive (m : Model) : ButtonInteractionState :=
  derivation (over m) (down m) (enabled m).

Definition tuple (m : Model) : bool * bool * bool := (over m, down m, enabled m).

Definition tuple_eqb (a b : bool * bool * bool) : bool :=
  let '(o1, d1, e1) := a in
  let '(o2, d2, e2) := b in
  Bool.eqb o1 o2 && Bool.eqb d1 d2 && Bool.eqb e1 e2.

(** A push button: its model and the derived property that listens to the
    three flags of the model.  The derived property holds a value of its
    own, which it recomputes when one of its dependencies notifies it. *)
Record Button : Type := mkButton {
  model : Model;
  interactionState : ButtonInteractionState
}.

Section WithListenerCode.

Variable body : Listener -> list Cmd.

Definition newButton (o : Options) : Button :=
  let m := new body o in
  {| model := m; interactionState := derive m |}.

Definition buttonStep (b : Button) (op : Op) : Button :=
  let m' := step body (model b) op in
  {| model := m';
     interactionState :=
       if tuple_eqb (tuple (model b)) (tuple m')
       then interactionState b
       else derive m' |}.

Definition buttonRun (b : Button) (ops : list Op) : Button :=
  fold_left buttonStep ops b.

End WithListenerCode.

End PushButtonInteractionStateProperty.

(** ** PushButtonModel with listeners that call back into the model *)

Module PushButtonReentrancy.

Import PushButtonModel.

(** What the code of a listener can do to the model it is registered on:
    set one of its three properties, register or remove a listener, or
    call [fire]. *)
Inductive Call : Type :=
| SetOverProperty (b : bool)
| SetDownProperty (b : bool)
| SetEnabledProperty (b : bool)
| AddListenerCall (l : Listener)
| RemoveListenerCall (l : Listener)
| FireCall.

(** The listeners of PushButtonModel above, among these. *)
Definition ofCmd (c : Cmd) : Call :=
  match c with
  | CallAddListener l => AddListenerCall l
  | CallRemoveListener l => RemoveListenerCall l
  end.

Section WithListenerCode.

(** The code of each listener function. *)
Variable code : Listener -> list Call.

(** A listener runs in the middle of [fire], and what it calls may call
    [fire] again.  Each function below takes the function that performs
    one call made by a listener as its argument [perform]; the knot is tied
    by [call], on fuel, which bounds the depth of the nesting. *)

(** One call [listener()]. *)
Definition invoke (perform : Model -> Call -> result Model)
    (m : Model) (l : Listener) : result Model :=
  foldM perform (code l) (log_call l m).

(** [fire]: iterate over a copy of the listener array taken on entry. *)
Definition fire (perform : Model -> Call -> result Model)
    (s : FireSource) (m : Model) : result Model :=
  let copy := listeners m in
  foldM (invoke perform) copy (log_fire s m).

(** Modelled from the spec: CallbackTimer.fire, as [timer_fire] above. *)
Definition timer_fire (perform : Model -> Call -> result Model)
    (m : Model) : result Model :=
  m' ← fire perform FromTimer m;
  Ok (match timer m' with
      | Some t => set_timer (Some (mkTimer (delay t) (interval t) (pending t) true)) m'
      | None => m'
      end).

(** Modelled from the spec: CallbackTimer.stop( fire ), as [timer_stop]
    above. *)
Definition timer_stop (perform : Model -> Call -> result Model)
    (f : bool) (m : Model) : result Model :=
  match timer m with
  | Some t =>
      if isRunning t then
        let m1 := set_timer (Some (mkTimer (delay t) (interval t) Idle (fired t))) m in
        if f && negb (fired t) then timer_fire perform m1 else Ok m1
      else Ok m
  | None => Ok m
  end.

(** Modelled from the spec: a due callback of the timer, as [timer_tick]
    above. *)
Definition timer_tick (perform : Model -> Call -> result Model)
    (m : Model) : result Model :=
  match timer m with
  | Some t =>
      if isRunning t then
        timer_fire perform
          (set_timer (Some (mkTimer (delay t) (interval t) IntervalPending (fired t))) m)
      else Ok m
  | None => Ok m
  end.

(** The listener linked to [downProperty].  It reads [enabledProperty]
    once, before [fire]; the timer is started after [fire] has returned. *)
Definition downListener (perform : Model -> Call -> result Model)
    (d : bool) (m : Model) : result Model :=
  if d then
    if enabled m then
      m1 ← (if fireOnDown (options m) then fire perform FromModel m else Ok m);
      Ok (match timer m1 with
          | Some _ => timer_start m1
          | None => m1
          end)
    else Ok m
  else
    let f := negb (fireOnDown (options m)) && over m && enabled m in
    match timer m with
    | Some _ => timer_stop perform f m
    | None => if f then fire perform FromModel m else Ok m
    end.

(** The listener linked to [enabledProperty]. *)
Definition enabledListener (perform : Model -> Call -> result Model)
    (e : bool) (m : Model) : result Model :=
  if negb e then
    match timer m with
    | Some _ => timer_stop perform false m
    | None => Ok m
    end
  else Ok m.

(** One call into the model.  A [Property.set] notifies its listeners
    before it returns, also when it is called from a listener. *)
Fixpoint call (fuel : nat) (m : Model) (c : Call) : result Model :=
  match fuel with
  | O => OutOfFuel
  | S k =>
      match c with
      | SetOverProperty b => Ok (setOver b m)
      | SetDownProperty b =>
          if Bool.eqb (down m) b then Ok m
          else downListener (call k) b (set_down b m)
      | SetEnabledProperty b =>
          if Bool.eqb (enabled m) b then Ok m
          else enabledListener (call k) b (set_enabled b m)
      | AddListenerCall l => Ok (addListener l m)
      | RemoveListenerCall l => Ok (removeListener l m)
      | FireCall => fire (call k) FromModel m
      end
  end.

(** [new PushButtonModel( options )]: the two [link] calls run their
    listener once. *)
Definition new (fuel : nat) (o : Options) : result Model :=
  let m0 :=
    {| options := o; over := false; down := false; enabled := true;
       listeners := match listener o with Some l => [l] | None => [] end;
       timer := if fireOnHold o
                then Some (mkTimer (fireOnHoldDelay o) (fireOnHoldInterval o) Idle false)
                else None;
       fireLog := []; callLog := [] |} in
  m1 ← downListener (call fuel) (down m0) m0;
  enabledListener (call fuel) (enabled m1) m1.

(** What happens to a model from outside its listeners: the operations of
    PushButtonModel above.  The calls that the listeners make in the course
    of a step may nest [fuel] deep. *)
Definition step (fuel : nat) (m : Model) (op : Op) : result Model :=
  match op with
  | SetOver b => call (S fuel) m (SetOverProperty b)
  | SetDown b => call (S fuel) m (SetDownProperty b)
  | SetEnabled b => call (S fuel) m (SetEnabledProperty b)
  | AddListener l => call (S fuel) m (AddListenerCall l)
  | RemoveListener l => call (S fuel) m (RemoveListenerCall l)
  | Fire => call (S fuel) m FireCall
  | Tick => timer_tick (call fuel) m
  end.

Definition run (fuel : nat) (m : Model) (ops : list Op) : result Model :=
  foldM (step fuel) ops m.

End WithListenerCode.

(** The steps that are neither a press nor a call of the public [fire]. *)
Definition neitherPressNorFire (op : Op) : bool :=
  match op with
  | SetDown true | Fire => false
  | _ => true
  end.

End PushButtonReentrancy.

(** ** StickyToggleButtonModel (SUN/buttons/StickyToggleButtonModel) *)

Module StickyToggleButtonModel.

Section WithValues.

(** The type of the values of the bound property, compared with [===]. *)
Context {V : Type} `{!EqDecision V}.

(** Whether assertions are enabled. *)
Variable assertions : bool.

(** The model: the flags of the base ButtonModel (see PushButtonModel), the
    two values, the bound [valueProperty], the guard flag, and the number
    of emissions of [toggledEmitter] so far. *)
Record Model : Type := mkModel {
  valueUp : V;
  valueDown : V;
  value : V;
  over : bool;
  down : bool;
  enabled : bool;
  pressedWhileDown : bool;
  toggles : nat
}.

Definition set_value (x : V) (m : Model) : Model :=
  mkModel (valueUp m) (valueDown m) x (over m) (down m) (enabled m)
          (pressedWhileDown m) (toggles m).
Definition set_over (b : bool) (m : Model) : Model :=
  mkModel (valueUp m) (valueDown m) (value m) b (down m) (enabled m)
          (pressedWhileDown m) (toggles m).
Definition set_down (b : bool) (m : Model) : Model :=
  mkModel (valueUp m) (valueDown m) (value m) (over m) b (enabled m)
          (pressedWhileDown m) (toggles m).
Definition set_enabled (b : bool) (m : Model) : Model :=
  mkModel (valueUp m) (valueDown m) (value m) (over m) (down m) b
          (pressedWhileDown m) (toggles m).
Definition set_pressedWhileDown (b : bool) (m : Model) : Model :=
  mkModel (valueUp m) (valueDown m) (value m) (over m) (down m) (enabled m)
          b (toggles m).
Definition count_toggle (m : Model) : Model :=
  mkModel (valueUp m) (valueDown m) (value m) (over m) (down m) (enabled m)
          (pressedWhileDown m) (S (toggles m)).

(** The listeners call each other: toggling sets the value, whose listener
    sets [downProperty], whose listener may toggle.  Each function takes
    the function it calls as an argument; the knot is tied by
    [downProperty_set], on fuel. *)

(** [valuePropertyListener]. *)
Definition valuePropertyListener (downSet : bool -> Model -> result Model)
    (x : V) (m : Model) : result Model :=
  downSet (bool_decide (x = valueDown m)) m.

(** [valueProperty.set( x )]. *)
Definition valueProperty_set (downSet : bool -> Model -> result Model)
    (x : V) (m : Model) : result Model :=
  if bool_decide (value m = x) then Ok m
  else valuePropertyListener downSet x (set_value x m).

(** [toggleListener].  The message of the assertion stands for the one of
    the code, which appends the value to it. *)
Definition toggleListener (downSet : bool -> Model -> result Model)
    (m : Model) : result Model :=
  _ ← assert assertions
        (bool_decide (value m = valueUp m) || bool_decide (value m = valueDown m))
        "unrecognized value";
  valueProperty_set downSet
    (if bool_decide (value m = valueUp m) then valueDown m else valueUp m) m.

(** [toggle]: one emission of [toggledEmitter]. *)
Definition toggle (downSet : bool -> Model -> result Model)
    (m : Model) : result Model :=
  toggleListener downSet (count_toggle m).

(** [downListener]. *)
Definition downListener (downSet : bool -> Model -> result Model)
    (d : bool) (m : Model) : result Model :=
  m2 ← (if enabled m && over m then
          m1 ← (if d && bool_decide (value m = valueUp m) then
                  t ← toggle downSet m;
                  Ok (set_pressedWhileDown false t)
                else Ok m);
          if negb d && bool_decide (value m1 = valueDown m1) then
            if pressedWhileDown m1 then toggle downSet m1
            else Ok (set_pressedWhileDown true m1)
          else Ok m1
        else Ok m);
  if negb d && negb (over m2) then Ok (set_pressedWhileDown true m2) else Ok m2.

(** [downProperty.set( d )]. *)
Fixpoint downProperty_set (fuel : nat) (d : bool) (m : Model) : result Model :=
  match fuel with
  | O => OutOfFuel
  | S k =>
      if Bool.eqb (down m) d then Ok m
      else downListener (downProperty_set k) d (set_down d m)
  end.

(** What [downProperty.set( d )] comes to once the nested notifications are
    followed through: the same listener with both calls of [toggle]
    replaced by their effect, the count and the new value.  It is compared
    with [downProperty_set] in Part II. *)
Definition setDown (d : bool) (m : Model) : Model :=
  if Bool.eqb (down m) d then m
  else
    let m0 := set_down d m in
    let m2 :=
      if enabled m0 && over m0 then
        let m1 :=
          if d && bool_decide (value m0 = valueUp m0)
          then set_pressedWhileDown false (set_value (valueDown m0) (count_toggle m0))
          else m0 in
        if negb d && bool_decide (value m1 = valueDown m1) then
          if pressedWhileDown m1
          then set_value (valueUp m1) (count_toggle m1)
          else set_pressedWhileDown true m1
        else m1
      else m0 in
    if negb d && negb (over m2) then set_pressedWhileDown true m2 else m2.

(** The guard flag is set whenever an enabled button is up while the value
    is [valueDown]: the next release may toggle. *)
Definition guardReady (m : Model) : Prop :=
  enabled m = true -> down m = false -> value m = valueDown m ->
  pressedWhileDown m = true.

(** [enabledPropertyOnListener]. *)
Definition enabledPropertyOnListener (e : bool) (m : Model) : Model :=
  if e then set_pressedWhileDown true m else m.

(** The operations on a model after its construction: the three setters of
    the base model, a write to the bound property by its other clients, and
    the public [toggle]. *)
Inductive Op : Type :=
| SetOver (b : bool)
| SetDown (b : bool)
| SetEnabled (b : bool)
| SetValue (x : V)
| Toggle.

Definition setOver (b : bool) (m : Model) : Model :=
  if Bool.eqb (over m) b then m else set_over b m.

Definition setEnabled (b : bool) (m : Model) : Model :=
  if Bool.eqb (enabled m) b then m
  else enabledPropertyOnListener b (set_enabled b m).

Definition step (fuel : nat) (m : Model) (op : Op) : result Model :=
  match op with
  | SetOver b => Ok (setOver b m)
  | SetDown b => downProperty_set fuel b m
  | SetEnabled b => Ok (setEnabled b m)
  | SetValue x => valueProperty_set (downProperty_set fuel) x m
  | Toggle => toggle (downProperty_set fuel) m
  end.

Fixpoint run (fuel : nat) (m : Model) (ops : list Op) : result Model :=
  match ops with
  | [] => Ok m
  | op :: rest => m' ← step fuel m op; run fuel m' rest
  end.

(** [new StickyToggleButtonModel( valueUp, valueDown, valueProperty )]: the
    three [link] calls run their listener once, in this order. *)
Definition new (fuel : nat) (up dn : V) (v0 : V) : result Model :=
  let m0 := mkModel up dn v0 false false true false 0 in
  m1 ← downListener (downProperty_set fuel) (down m0) m0;
  m2 ← valuePropertyListener (downProperty_set fuel) (value m1) m1;
  Ok (enabledPropertyOnListener (enabled m2) m2).

End WithValues.

Arguments Model V : clear implicits.
Arguments Op V : clear implicits.

End StickyToggleButtonModel.

(** ** ToggleButtonModel (SUN/experimental/buttons/ToggleButtonModel) *)

Module ToggleButtonModel.

(** Identity of a pointer. *)
Definition Pointer := nat.

(** The only option. *)
Record Options : Type := mkOptions { toggleOnDown : bool }.

(** The default of [_.extend]: toggle on release. *)
Definition defaultOptions : Options := {| toggleOnDown := false |}.

(** The fields of the model that the two handlers read and write: those of
    the base model ([downPointer], [overPointer], [buttonEnabled] and the
    [interactionState] property, a string) and [buttonStateUp]. *)
Record Model : Type := mkModel {
  downPointer : option Pointer;
  overPointer : option Pointer;
  buttonEnabled : bool;
  interactionState : string;
  buttonStateUp : bool
}.

Definition set_downPointer (p : option Pointer) (m : Model) : Model :=
  mkModel p (overPointer m) (buttonEnabled m) (interactionState m) (buttonStateUp m).
Definition set_interactionState (s : string) (m : Model) : Model :=
  mkModel (downPointer m) (overPointer m) (buttonEnabled m) s (buttonStateUp m).

(** [buttonStateUp.toggle()]. *)
Definition toggleState (m : Model) : Model :=
  mkModel (downPointer m) (overPointer m) (buttonEnabled m) (interactionState m)
          (negb (buttonStateUp m)).

(** [x === event.pointer], where [x] may be [null]. *)
Definition isPointer (x : option Pointer) (p : Pointer) : bool :=
  match x with Some q => Nat.eqb q p | None => false end.

(** A new model: no pointer tracked, enabled, idle, up. *)
Definition new : Model := mkModel None None true "idle" true.

(** The [down] handler. *)
Definition handleDown (o : Options) (p : Pointer) (m : Model) : Model :=
  let m1 := match downPointer m with
            | None => set_downPointer (Some p) m
            | Some _ => m
            end in
  if buttonEnabled m1 && isPointer (downPointer m1) p then
    let m2 := set_interactionState "pressed" m1 in
    if toggleOnDown o then toggleState m2 else m2
  else m1.

(** The [up] handler. *)
Definition handleUp (o : Options) (p : Pointer) (m : Model) : Model :=
  let m2 :=
    if buttonEnabled m then
      let m1 := set_interactionState
                  (match overPointer m with
                   | None => "idle"
                   | Some _ => if buttonStateUp m then "pressed" else "over"
                   end) m in
      if negb (toggleOnDown o) && isPointer (downPointer m1) p
         && isPointer (overPointer m1) p
      then toggleState m1 else m1
    else m in
  if isPointer (downPointer m2) p then set_downPointer None m2 else m2.

End ToggleButtonModel.

(** ** RectangularButton (SUN/buttons/RectangularButton) *)

Module RectangularButton.

Definition VERTICAL_HIGHLIGHT_GRADIENT_LENGTH : Z := 7.
Definition HORIZONTAL_HIGHLIGHT_GRADIENT_LENGTH : Z := 7.
Definition SHADE_GRADIENT_LENGTH : Z := 3.
Definition X_ALIGN_VALUES : list string := ["center"; "left"; "right"].
Definition Y_ALIGN_VALUES : list string := ["center"; "top"; "bottom"].

(** [_.includes( values, x )]. *)
Definition includes (values : list string) (x : string) : bool :=
  existsb (String.eqb x) values.

(** The stroke option: [undefined] (the default), [null], or a paint. *)
Inductive StrokeOption : Type :=
| StrokeUndefined
| StrokeNull
| StrokeGiven (name : string).

(** Which of the two stock appearance strategies a button uses. *)
Inductive Strategy : Type := ThreeD | Flat.

(** The options the constructor and the strategies look at.  Lengths are
    integers here. *)
Record Options : Type := mkOptions {
  content : option (Z * Z);        (* width and height of the content node *)
  minWidth : Z;
  minHeight : Z;
  xMargin : Z;
  yMargin : Z;
  stroke : StrokeOption;
  xAlign : string;
  yAlign : string;
  buttonAppearanceStrategy : Strategy
}.

Definition defaultOptions : Options :=
  {| content := None;
     minWidth := HORIZONTAL_HIGHLIGHT_GRADIENT_LENGTH + SHADE_GRADIENT_LENGTH;
     minHeight := VERTICAL_HIGHLIGHT_GRADIENT_LENGTH + SHADE_GRADIENT_LENGTH;
     xMargin := 8;
     yMargin := 5;
     stroke := StrokeUndefined;
     xAlign := "center";
     yAlign := "center";
     buttonAppearanceStrategy := ThreeD |}.

(** The paints that the strategies build once and then assign. *)
Inductive Paint : Type :=
| NoPaint                       (* null *)
| BaseColor                     (* baseColorProperty *)
| DisabledBaseColor             (* options.disabledBaseColor *)
| BaseBrighter4
| BaseDarker4
| DisabledBaseDarker4
| UpFillVertical
| UpFillHorizontal
| OverFillVertical
| OverFillHorizontal
| DownFillVertical
| DisabledFillVertical
| DisabledFillHorizontal
| DisabledPressedFillVertical
| Custom (name : string).       (* options.stroke *)

(** [enabledStroke] and [disabledStroke], the same in both strategies. *)
Definition enabledStroke (o : Options) : Paint :=
  match stroke o with
  | StrokeNull => NoPaint
  | StrokeUndefined => BaseDarker4
  | StrokeGiven s => Custom s
  end.

Definition disabledStroke (o : Options) : Paint :=
  match stroke o with
  | StrokeNull => NoPaint
  | StrokeUndefined => DisabledBaseDarker4
  | StrokeGiven _ => DisabledBaseDarker4
  end.

(** The two nodes a strategy paints: the button path and, for the 3D look,
    the overlay path added to it. *)
Record Node : Type := mkNode { fill : Paint; nodeStroke : Paint }.

Record Painted : Type := mkPainted { button : Node; overlay : Node }.

Section WithInteractionStates.

(** The values an interaction-state property can hold, compared with [===],
    and the five members of the enumeration ButtonInteractionState, whose
    file is not among the sources. *)
Context {Value : Type} `{!EqDecision Value}.
Variables IDLE OVER PRESSED DISABLED DISABLED_PRESSED : Value.
Variable toString : Value -> string.

Definition unsupported (v : Value) : string :=
  "unsupported interactionState: " +:+ toString v.

(** [updateAppearance] of ThreeDAppearanceStrategy. *)
Definition updateAppearance3D (o : Options) (v : Value) (p : Painted) : result Painted :=
  if bool_decide (v = IDLE) then
    Ok (mkPainted (mkNode UpFillVertical (nodeStroke (button p)))
                  (mkNode UpFillHorizontal (enabledStroke o)))
  else if bool_decide (v = OVER) then
    Ok (mkPainted (mkNode OverFillVertical (nodeStroke (button p)))
                  (mkNode OverFillHorizontal (enabledStroke o)))
  else if bool_decide (v = PRESSED) then
    Ok (mkPainted (mkNode DownFillVertical (nodeStroke (button p)))
                  (mkNode OverFillHorizontal (enabledStroke o)))
  else if bool_decide (v = DISABLED) then
    Ok (mkPainted (mkNode DisabledFillVertical (disabledStroke o))
                  (mkNode DisabledFillHorizontal (disabledStroke o)))
  else if bool_decide (v = DISABLED_PRESSED) then
    Ok (mkPainted (mkNode DisabledPressedFillVertical (disabledStroke o))
                  (mkNode DisabledFillHorizontal (disabledStroke o)))
  else Thrown (unsupported v).

(** [updateAppearance] of FlatAppearanceStrategy; there is no overlay. *)
Definition updateAppearanceFlat (o : Options) (v : Value) (p : Painted) : result Painted :=
  if bool_decide (v = IDLE) then
    Ok (mkPainted (mkNode BaseColor (enabledStroke o)) (overlay p))
  else if bool_decide (v = OVER) then
    Ok (mkPainted (mkNode BaseBrighter4 (enabledStroke o)) (overlay p))
  else if bool_decide (v = PRESSED) then
    Ok (mkPainted (mkNode BaseDarker4 (enabledStroke o)) (overlay p))
  else if bool_decide (v = DISABLED) then
    Ok (mkPainted (mkNode DisabledBaseColor (disabledStroke o)) (overlay p))
  else if bool_decide (v = DISABLED_PRESSED) then
    Ok (mkPainted (mkNode DisabledBaseColor (disabledStroke o)) (overlay p))
  else Thrown (unsupported v).

Definition updateAppearance (s : Strategy) : Options -> Value -> Painted -> result Painted :=
  match s with
  | ThreeD => updateAppearance3D
  | Flat => updateAppearanceFlat
  end.

(** The fill and the stroke that a call of [updateAppearance] writes: the
    fill of the button path, and the stroke of the overlay (3D) or of the
    button path (flat). *)
Definition assignedFill (p : Painted) : Paint := fill (button p).

Definition assignedStroke (s : Strategy) (p : Painted) : Paint :=
  match s with
  | ThreeD => nodeStroke (overlay p)
  | Flat => nodeStroke (button p)
  end.

Definition members : list Value := [IDLE; OVER; PRESSED; DISABLED; DISABLED_PRESSED].

End WithInteractionStates.

(** What a finished construction has computed. *)
Record Built : Type := mkBuilt {
  buttonWidth : Z;
  buttonHeight : Z;
  alignment : string * string
}.

(** The two assertions at the head of ThreeDAppearanceStrategy. *)
Definition threeDAssertions (assertions : bool) (w h : Z) : result unit :=
  _ ← assert assertions (HORIZONTAL_HIGHLIGHT_GRADIENT_LENGTH + SHADE_GRADIENT_LENGTH <=? w) "";
  assert assertions (VERTICAL_HIGHLIGHT_GRADIENT_LENGTH + SHADE_GRADIENT_LENGTH <=? h) "".

(** The constructor, from the validation of the options to the
    construction of the appearance strategy. *)
Definition construct (assertions : bool) (o : Options) : result Built :=
  _ ← assert assertions (includes X_ALIGN_VALUES (xAlign o))
        ("invalid xAlign: " +:+ xAlign o);
  _ ← assert assertions (includes Y_ALIGN_VALUES (yAlign o))
        ("invalid yAlign: " +:+ yAlign o);
  let w := Z.max (match content o with Some (cw, _) => cw + xMargin o * 2 | None => 0 end)
                 (minWidth o) in
  let h := Z.max (match content o with Some (_, ch) => ch + yMargin o * 2 | None => 0 end)
                 (minHeight o) in
  _ ← match buttonAppearanceStrategy o with
      | ThreeD => threeDAssertions assertions w h
      | Flat => Ok tt
      end;
  Ok (mkBuilt w h (xAlign o, yAlign o)).

End RectangularButton.

(** ** Slider (SUN/Slider): the validation at the head of the constructor *)

Module Slider.

(** The two options that the constructor validates before it builds the
    node: [rotation] is [None] when the client left it undefined. *)
Record Options : Type := mkOptions {
  orientation : string;
  rotation : option Z
}.

Definition defaultOptions : Options :=
  {| orientation := "horizontal"; rotation := None |}.

(** What the constructor has decided when it calls [Node.call( this )]. *)
Record Validated : Type := mkValidated {
  sliderOrientation : string;
  rotated : bool                 (* rotation set to VERTICAL_ROTATION *)
}.

Definition construct (assertions : bool) (o : Options) : result Validated :=
  _ ← assert assertions
        (String.eqb (orientation o) "horizontal" || String.eqb (orientation o) "vertical")
        ("invalid orientation: " +:+ orientation o);
  _ ← assert assertions
        (match rotation o with None => true | Some _ => false end)
        "Slider specifies rotation based on orientation";
  Ok (mkValidated (orientation o) (String.eqb (orientation o) "vertical")).

End Slider.

(** ** ComboBox (SUN/ComboBox): the validation at the head of the constructor *)

Module ComboBox.

Definition LIST_POSITION_VALUES : list string := ["above"; "below"].
Definition ALIGN_VALUES : list string := ["left"; "right"; "center"].

(** The options that the constructor validates before [super()].  The
    opacity is a rational number, the margins are integers. *)
Record Options : Type := mkOptions {
  align : string;
  listPosition : string;
  disabledOpacity : Q;
  xMargin : Z;
  yMargin : Z
}.

Definition defaultOptions : Options :=
  {| align := "left"; listPosition := "below"; disabledOpacity := (1 # 2)%Q;
     xMargin := 12; yMargin := 8 |}.

Definition Qltb (x y : Q) : bool := negb (Qle_bool y x).

(** [listParentMaxWidth] is [None] when [listParent.maxWidth === null].
    The message of the opacity assertion stands for the one of the code,
    which appends the opacity to it. *)
Definition construct (assertions : bool) (listParentMaxWidth : option Z)
    (o : Options) : result Options :=
  _ ← assert assertions
        (match listParentMaxWidth with None => true | Some _ => false end)
        "ComboBox is responsible for scaling listBox. Setting maxWidth for listParent may result in buggy behavior.";
  _ ← assert assertions ((0 <? xMargin o) && (0 <? yMargin o))
        ("margins must be > 0, xMargin=" +:+ pretty (xMargin o)
           +:+ ", yMargin=" +:+ pretty (yMargin o));
  _ ← assert assertions
        (Qltb 0 (disabledOpacity o) && Qltb (disabledOpacity o) 1)
        "invalid disabledOpacity";
  _ ← assert assertions
        (RectangularButton.includes LIST_POSITION_VALUES (listPosition o))
        ("invalid listPosition: " +:+ listPosition o);
  _ ← assert assertions
        (RectangularButton.includes ALIGN_VALUES (align o))
        ("invalid align: " +:+ align o);
  Ok o.

End ComboBox.

(** ** ButtonListener (SUN/experimental/buttons/ButtonListener) *)

Module ButtonListener.

Definition Pointer := nat.

(** The two pointers the listener tracks, and the two flags of the button
    model that it writes. *)
Record State : Type := mkState {
  overPointer : option Pointer;
  downPointer : option Pointer;
  over : bool;
  down : bool
}.

(** The calls of the four callbacks of the listener, each with the pointer
    of its event.  (DownUpListener, which decides when [down] and [up] are
    called, is not among the sources.) *)
Inductive Event : Type :=
| Down (p : Pointer)
| Up (p : Pointer)
| Enter (p : Pointer)
| Exit (p : Pointer).

Definition isPointer (x : option Pointer) (p : Pointer) : bool :=
  match x with Some q => Nat.eqb q p | None => false end.

(** A listener on a button model whose flags are both false. *)
Definition new : State := mkState None None false false.

Definition handle (s : State) (e : Event) : State :=
  match e with
  | Down p =>
      let s1 := match downPointer s with
                | None => mkState (overPointer s) (Some p) (over s) (down s)
                | Some _ => s
                end in
      if isPointer (downPointer s1) p
      then mkState (overPointer s1) (downPointer s1) (over s1) true
      else s1
  | Up p =>
      if isPointer (downPointer s) p
      then mkState (overPointer s) None (over s) false
      else s
  | Enter p =>
      match overPointer s with
      | None => mkState (Some p) (downPointer s) true (down s)
      | Some _ => s
      end
  | Exit p =>
      if isPointer (overPointer s) p
      then mkState None (downPointer s) false (down s)
      else s
  end.

Definition run (s : State) (es : list Event) : State := fold_left handle es s.

(** The flags of the model say whether a pointer is tracked. *)
Definition tracks (s : State) : Prop :=
  down s = bool_decide (is_Some (downPointer s)) /\
  over s = bool_decide (is_Some (overPointer s)).

(** The pointer of an event. *)
Definition pointerOf (e : Event) : Pointer :=
  match e with Down p | Up p | Enter p | Exit p => p end.

Definition isDownUp (e : Event) : bool :=
  match e with Down _ | Up _ => true | _ => false end.

End ButtonListener.

(** ** AquaRadioButton (SUN/AquaRadioButton): buttons sharing one property *)

Module AquaRadioButton.

Section WithValues.

Context {V : Type} `{!EqDecision V}.

(** What a button shows: the visibility of its two nodes, and the checked
    state of its accessible peer. *)
Record Button : Type := mkButton {
  value : V;
  selectedVisible : bool;
  deselectedVisible : bool;
  accessibleChecked : bool
}.

(** The shared property and the buttons linked to it, in the order of
    their construction. *)
Record Group : Type := mkGroup {
  propertyValue : V;
  buttons : list Button
}.

(** [syncWithModel]. *)
Definition syncWithModel (newValue : V) (b : Button) : Button :=
  let sel := bool_decide (newValue = value b) in
  mkButton (value b) sel (negb sel) (accessibleChecked b).

(** [accessibleCheckedListener]. *)
Definition accessibleCheckedListener (newValue : V) (b : Button) : Button :=
  mkButton (value b) (selectedVisible b) (deselectedVisible b)
           (bool_decide (newValue = value b)).

(** The two listeners of one button, in the order they are linked. *)
Definition notify (newValue : V) (b : Button) : Button :=
  accessibleCheckedListener newValue (syncWithModel newValue b).

(** [new AquaRadioButton( property, value, ... )]: both nodes start
    visible, and each [link] calls its listener with the current value. *)
Definition addButton (v : V) (g : Group) : Group :=
  mkGroup (propertyValue g)
          (buttons g ++ [notify (propertyValue g) (mkButton v true true false)]).

(** [property.set( x )]: every linked listener is notified of a change. *)
Definition setProperty (x : V) (g : Group) : Group :=
  if bool_decide (propertyValue g = x) then g
  else mkGroup x (notify x <$> buttons g).

(** [fire] of the button at index [i]. *)
Definition fire (i : nat) (g : Group) : Group :=
  match buttons g !! i with
  | Some b => setProperty (value b) g
  | None => g
  end.

Inductive Op : Type :=
| AddButton (v : V)
| Fire (i : nat)
| SetProperty (x : V).

Definition step (g : Group) (op : Op) : Group :=
  match op with
  | AddButton v => addButton v g
  | Fire i => fire i g
  | SetProperty x => setProperty x g
  end.

Definition run (g : Group) (ops : list Op) : Group := fold_left step ops g.

(** A property with no radio button yet. *)
Definition new (v0 : V) : Group := mkGroup v0 [].

(** A button shows what the property says: it is selected exactly when
    the property holds its value, and then only its selected node is
    visible. *)
Definition inSync (x : V) (b : Button) : Prop :=
  selectedVisible b = bool_decide (x = value b) /\
  deselectedVisible b = negb (selectedVisible b) /\
  accessibleChecked b = selectedVisible b.

End WithValues.

Arguments Button V : clear implicits.
Arguments Group V : clear implicits.
Arguments Op V : clear implicits.

End AquaRadioButton.

(** ** Dialog (SUN/Dialog): showing and hiding *)

Module Dialog.

(** Identity of a scenery node that can take the focus. *)
Definition FocusNode := nat.

(** The options that [show] and [hide] look at. *)
Record Options : Type := mkOptions {
  showCallback : bool;                 (* a callback is given *)
  hideCallback : bool;
  focusOnCloseNode : option FocusNode;
  modal : bool
}.

(** What the dialog does to its surroundings, in order. *)
Inductive Effect : Type :=
| ShowPopup (isModal : bool)
| HidePopup (isModal : bool)
| AccessibleViewsVisible (visible : bool)
| UpdateLayout
| ShowCallback
| HideCallback
| Focus (n : FocusNode).

Record State : Type := mkState {
  options : Options;
  isShowing : bool;
  activeElement : option FocusNode;
  effects : list Effect
}.

Definition emit (e : Effect) (s : State) : State :=
  mkState (options s) (isShowing s) (activeElement s) (effects s ++ [e]).

(** The part of the constructor that sets the fields above; the layout is
    updated once.  The constructor's assertion that the dialog is modal is
    not part of it: what follows holds of non-modal dialogs too, which the
    code refuses when assertions are enabled. *)
Definition new (o : Options) : State :=
  mkState o false (focusOnCloseNode o) [UpdateLayout].

(** [show]; [focused] is [Display.focusedNode] at the time of the call. *)
Definition show (focused : option FocusNode) (s : State) : State :=
  if negb (isShowing s) then
    let s1 := emit (ShowPopup (modal (options s))) s in
    let s2 := mkState (options s1) true
                      (match activeElement s1 with
                       | Some n => Some n
                       | None => focused
                       end)
                      (effects s1) in
    let s3 := emit UpdateLayout (emit (AccessibleViewsVisible false) s2) in
    if showCallback (options s3) then emit ShowCallback s3 else s3
  else s.

(** [hide]. *)
Definition hide (s : State) : State :=
  if isShowing s then
    let s1 := emit (HidePopup (modal (options s))) s in
    let s2 := mkState (options s1) false (activeElement s1) (effects s1) in
    let s3 := emit (AccessibleViewsVisible true) s2 in
    if hideCallback (options s3) then emit HideCallback s3 else s3
  else s.

(** [focusActiveElement]. *)
Definition focusActiveElement (s : State) : State :=
  match activeElement s with
  | Some n => emit (Focus n) s
  | None => s
  end.

(** What happens to a dialog: the two public methods, the escape key, and
    the close button with the default [closeButtonListener], fired by a
    pointer or through the accessible peer. *)
Inductive Op : Type :=
| Show (focused : option FocusNode)
| Hide
| Escape
| CloseButton (a11yClicking : bool).

Definition step (s : State) (op : Op) : State :=
  match op with
  | Show focused => show focused s
  | Hide => hide s
  | Escape => focusActiveElement (hide s)
  | CloseButton a11y =>
      let s1 := hide s in
      if a11y then focusActiveElement s1 else s1
  end.

Definition run (s : State) (ops : list Op) : State := fold_left step ops s.

(** The number of popups the sim holds for this dialog, according to the
    calls made so far. *)
Fixpoint popups (es : list Effect) : Z :=
  match es with
  | [] => 0
  | ShowPopup _ :: rest => 1 + popups rest
  | HidePopup _ :: rest => popups rest - 1
  | _ :: rest => popups rest
  end.

(** The popups of the log are those of the state. *)
Definition balanced (s : State) : Prop :=
  popups (effects s) = if isShowing s then 1 else 0.

(** [applyDoubleMargin] of the later Dialog. *)
Definition applyDoubleMargin (dimension margin : Q) : Q :=
  if negb (Qle_bool dimension (margin * 2)) then (dimension - margin * 2)%Q
  else dimension.

End Dialog.

(** ** Lengths

    Lengths are JavaScript numbers, binary64 floating-point numbers.  The
    layouts of Panel and ABSwitch below add, subtract, double, halve and
    compare them.  On whole numbers of magnitude at most 2^40 binary64
    performs every one of these operations without rounding (all the
    values that occur are multiples of one half, far below 2^53), so that
    the rational numbers of the model are the numbers the code computes.
    Off such numbers the code rounds, and the model does not follow it. *)

Definition integral (x : Q) : Prop :=
  exists z : Z, Z.abs z <= 2 ^ 40 /\ x = inject_Z z.

(** ** Panel (SUN/Panel): the layout of the background *)

Module Panel.

Definition ALIGN_VALUES : list string := ["left"; "center"; "right"].

Record Options : Type := mkOptions {
  xMargin : Q;
  yMargin : Q;
  align : string;
  minWidth : Q;
  resize : bool
}.

Definition DEFAULT_OPTIONS : Options :=
  {| xMargin := 5; yMargin := 5; align := "left"; minWidth := 0; resize := true |}.

(** The bounds of the content in the panel's frame, whether the content
    takes part in the layout, the background rectangle (at the origin), and
    the flag that prevents recursion. *)
Record State : Type := mkState {
  contentLeft : Q;
  contentTop : Q;
  contentWidth : Q;
  contentHeight : Q;
  contentIncluded : bool;
  backgroundShown : bool;
  backgroundWidth : Q;
  backgroundHeight : Q;
  backgroundUpdateInProgress : bool
}.

Definition set_backgroundShown (b : bool) (s : State) : State :=
  mkState (contentLeft s) (contentTop s) (contentWidth s) (contentHeight s)
          (contentIncluded s) b (backgroundWidth s) (backgroundHeight s)
          (backgroundUpdateInProgress s).
Definition set_inProgress (b : bool) (s : State) : State :=
  mkState (contentLeft s) (contentTop s) (contentWidth s) (contentHeight s)
          (contentIncluded s) (backgroundShown s) (backgroundWidth s)
          (backgroundHeight s) b.
Definition setRect (w h : Q) (s : State) : State :=
  mkState (contentLeft s) (contentTop s) (contentWidth s) (contentHeight s)
          (contentIncluded s) (backgroundShown s) w h
          (backgroundUpdateInProgress s).
Definition set_content (l t : Q) (s : State) : State :=
  mkState l t (contentWidth s) (contentHeight s)
          (contentIncluded s) (backgroundShown s) (backgroundWidth s)
          (backgroundHeight s) (backgroundUpdateInProgress s).

(** The lengths that [updateBackground] reads are whole numbers. *)
Definition integralLengths (o : Options) (s : State) : Prop :=
  integral (xMargin o) /\ integral (yMargin o) /\ integral (minWidth o) /\
  integral (contentLeft s) /\ integral (contentTop s) /\
  integral (contentWidth s) /\ integral (contentHeight s).

(** Moving the content changes its bounds, and the bounds property then
    calls the listener linked to it, which is [updateBackground] when the
    panel resizes. *)
Definition moveContent (listener : State -> result State) (o : Options)
    (l t : Q) (s : State) : result State :=
  if Qeq_bool l (contentLeft s) && Qeq_bool t (contentTop s) then Ok s
  else if resize o then listener (set_content l t s)
  else Ok (set_content l t s).

(** [updateBackground]. *)
Fixpoint updateBackground (fuel : nat) (o : Options) (s : State) : result State :=
  match fuel with
  | O => OutOfFuel
  | S k =>
      if backgroundUpdateInProgress s then Ok s
      else
        let s1 := set_backgroundShown (contentIncluded s) s in
        if negb (contentIncluded s) then Ok s1
        else
          let s2 := set_inProgress true s1 in
          let width := Qmax (minWidth o) (contentWidth s2 + 2 * xMargin o) in
          let s3 := setRect width (contentHeight s2 + 2 * yMargin o) s2 in
          let centerX := (backgroundWidth s3 / 2)%Q in
          let centerY := (backgroundHeight s3 / 2)%Q in
          s5 ← (if String.eqb (align o) "center" then
                  moveContent (updateBackground k o) o
                    (centerX - contentWidth s3 / 2) (centerY - contentHeight s3 / 2) s3
                else if String.eqb (align o) "left" then
                  s4 ← moveContent (updateBackground k o) o
                         (centerX - width / 2 + xMargin o) (contentTop s3) s3;
                  moveContent (updateBackground k o) o
                    (contentLeft s4) (centerY - contentHeight s4 / 2) s4
                else
                  s4 ← moveContent (updateBackground k o) o
                         (centerX + width / 2 - xMargin o - contentWidth s3)
                         (contentTop s3) s3;
                  moveContent (updateBackground k o) o
                    (contentLeft s4) (centerY - contentHeight s4 / 2) s4);
          Ok (set_inProgress false s5)
  end.

End Panel.

(** ** ABSwitch (SUN/ABSwitch): the horizontal layout *)

Module ABSwitch.

(** A horizontal extent. *)
Record Span : Type := mkSpan { left : Q; right : Q }.

Definition union (a b : Span) : Span :=
  mkSpan (Qmin (left a) (left b)) (Qmax (right a) (right b)).

Definition width (a : Span) : Q := (right a - left a)%Q.

Definition centerX (a : Span) : Q := ((left a + right a) / 2)%Q.

Definition Qltb (x y : Q) : bool := negb (Qle_bool y x).

(** The layout done by the constructor, from the extent of the toggle
    switch and the widths of the two labels: the extents of the labels, of
    the strut if there is one, and of the whole node. *)
Record Layout : Type := mkLayout {
  labelA : Span;
  labelB : Span;
  strut : option Span;
  node : Span
}.

(** The lengths that the layout reads are whole numbers. *)
Definition integralLengths (toggleSwitch : Span) (widthA widthB xSpacing : Q) : Prop :=
  integral (left toggleSwitch) /\ integral (right toggleSwitch) /\
  integral widthA /\ integral widthB /\ integral xSpacing.

Definition layout (toggleSwitch : Span) (widthA widthB xSpacing : Q)
    (centerOnButton : bool) : Layout :=
  let a := mkSpan (left toggleSwitch - xSpacing - widthA) (left toggleSwitch - xSpacing) in
  let b := mkSpan (right toggleSwitch + xSpacing) (right toggleSwitch + xSpacing + widthB) in
  let this := union (union toggleSwitch a) b in
  if centerOnButton then
    let additionalWidth := Qabs (width a - width b) in
    let strutWidth := (width this + additionalWidth)%Q in
    let strutLeft :=
      if Qltb (width a) (width b) then (left a - additionalWidth / 2)%Q else left a in
    let s := mkSpan strutLeft (strutLeft + strutWidth) in
    mkLayout a b (Some s) (union this s)
  else mkLayout a b None this.

End ABSwitch.

(** ** ComboBox (SUN/ComboBox): the list box and the click-to-dismiss listener *)

Module ComboBoxListBox.

(** Identity of a scenery display. *)
Definition Display := nat.

(** Whether the list box is visible, the display the combo box remembers,
    the displays that hold [clickToDismissListener], the two flags and
    [pickable]. *)
Record State : Type := mkState {
  listBoxVisible : bool;
  display : option Display;
  listening : list Display;
  enabled : bool;
  displayOnly : bool;
  pickable : bool
}.

Definition set_pickable (b : bool) (s : State) : State :=
  mkState (listBoxVisible s) (display s) (listening s) (enabled s) (displayOnly s) b.

(** [display.hasInputListener], [addInputListener], [removeInputListener],
    for the one listener of this combo box. *)
Definition hasInputListener (d : Display) (s : State) : bool :=
  bool_decide (d ∈ listening s).

Definition addInputListener (d : Display) (s : State) : State :=
  mkState (listBoxVisible s) (display s) (listening s ++ [d])
          (enabled s) (displayOnly s) (pickable s).

Definition removeInputListener (d : Display) (s : State) : State :=
  mkState (listBoxVisible s) (display s)
          (List.filter (fun x => negb (Nat.eqb x d)) (listening s))
          (enabled s) (displayOnly s) (pickable s).

Definition set_display (x : option Display) (s : State) : State :=
  mkState (listBoxVisible s) x (listening s) (enabled s) (displayOnly s) (pickable s).

(** The listener linked to [listBox.visibleProperty]; [root] is the first
    display rooted at the combo box when the list box is shown. *)
Definition visibleListener (assertions : bool) (root : Display)
    (visible : bool) (s : State) : result State :=
  if visible then
    _ ← assert assertions
          (match display s with None => true | Some _ => false end)
          "unexpected display";
    Ok (addInputListener root (set_display (Some root) s))
  else
    match display s with
    | Some d =>
        if hasInputListener d s
        then Ok (set_display None (removeInputListener d s))
        else Ok s
    | None => Ok s
    end.

(** [listBox.visibleProperty.value = visible]. *)
Definition setVisible (assertions : bool) (root : Display)
    (visible : bool) (s : State) : result State :=
  if Bool.eqb (listBoxVisible s) visible then Ok s
  else visibleListener assertions root visible
         (mkState visible (display s) (listening s) (enabled s)
                  (displayOnly s) (pickable s)).

(** What happens to a combo box; each event comes with the display the
    combo box is rooted in at that time. *)
Inductive Op : Type :=
| ShowListBox
| HideListBox
| ButtonFired                       (* the button toggles the list box *)
| PointerDown (overButtonOrList : bool)
| FocusChanged (focus : option bool) (* the focused trail contains the list box *)
| SetEnabled (b : bool)
| SetDisplayOnly (b : bool).

Definition step (assertions : bool) (root : Display) (s : State) (op : Op)
    : result State :=
  match op with
  | ShowListBox => setVisible assertions root true s
  | HideListBox => setVisible assertions root false s
  | ButtonFired => setVisible assertions root (negb (listBoxVisible s)) s
  | PointerDown inside =>
      (* the listener hears the event only on a display that holds it *)
      if hasInputListener root s && negb inside
      then setVisible assertions root false s else Ok s
  | FocusChanged focus =>
      match focus with
      | Some false => setVisible assertions root false s
      | _ => Ok s
      end
  | SetEnabled b =>
      if Bool.eqb (enabled s) b then Ok s
      else Ok (mkState (listBoxVisible s) (display s) (listening s) b
                       (displayOnly s) b)
  | SetDisplayOnly b =>
      if Bool.eqb (displayOnly s) b then Ok s
      else
        s1 ← setVisible assertions root false
               (mkState (listBoxVisible s) (display s) (listening s) (enabled s)
                        b (pickable s));
        Ok (set_pickable (negb b) s1)
  end.

(** A history, with the root display at the time of each event. *)
Fixpoint run (assertions : bool) (s : State) (ops : list (Display * Op))
    : result State :=
  match ops with
  | [] => Ok s
  | (root, op) :: rest =>
      s' ← step assertions root s op; run assertions s' rest
  end.

(** The state the constructor leaves: the list box is built invisible, the
    combo box enabled and not display-only, and every [link] has called its
    listener once. *)
Definition new : State := mkState false None [] true false true.

(** The combo box remembers a display, and that display holds the
    listener, exactly while the list box is visible. *)
Definition dismissable (s : State) : Prop :=
  match display s with
  | Some d => listBoxVisible s = true /\ listening s = [d]
  | None => listBoxVisible s = false /\ listening s = []
  end.

End ComboBoxListBox.

(** ** Slider (SUN/Slider): the value under a change of the enabled range *)

Module SliderRange.

Record Range : Type := mkRange { min : Q; max : Q }.

(** [Util.clamp] of the dot library. *)
Definition clamp (value lo hi : Q) : Q :=
  if negb (Qle_bool lo value) then lo
  else if negb (Qle_bool value hi) then hi
  else value.

(** What [enabledRangeObserver] does to the value of the slider: it checks
    the enabled range against the range of the slider, and clamps the value
    to the enabled range.  (It also recomputes the geometry of the track,
    which does not act on the value.) *)
Definition enabledRangeObserver (assertions : bool) (range enabledRange : Range)
    (value : Q) : result Q :=
  _ ← assert assertions
        (Qle_bool (min range) (min enabledRange) && Qle_bool (max enabledRange) (max range))
        "enabledRange is out of range";
  Ok (clamp value (min enabledRange) (max enabledRange)).

End SliderRange.

(** ** Kinds of histories *)

Module Histories.

(** A step of a sticky toggle model that is not a write to the bound
    property by another client. *)
Definition isInternal {V : Type} (op : StickyToggleButtonModel.Op V) : bool :=
  match op with
  | StickyToggleButtonModel.SetValue _ => false
  | _ => true
  end.

(** A press and hold: the press, then [n] timer callbacks. *)
Definition hold (n : nat) : list PushButtonModel.Op :=
  PushButtonModel.SetDown true :: replicate n PushButtonModel.Tick.

(** The value of a sticky toggle model is told by the number of toggles so
    far. *)
Definition countsToggles {V : Type} (m : StickyToggleButtonModel.Model V) : Prop :=
  StickyToggleButtonModel.value m =
  if Nat.even (StickyToggleButtonModel.toggles m)
  then StickyToggleButtonModel.valueUp m
  else StickyToggleButtonModel.valueDown m.

End Histories.

(** ** Sequences of appearance updates *)

Module AppearanceHistories.

Section WithInteractionStates.

Context {Value : Type} `{!EqDecision Value}.
Variables IDLE OVER PRESSED DISABLED DISABLED_PRESSED : Value.
Variable toString : Value -> string.

(** The interaction state property takes the values [vs] one after the
    other, and the strategy updates the paints each time. *)
Fixpoint updates (s : RectangularButton.Strategy) (o : RectangularButton.Options)
    (vs : list Value) (p : RectangularButton.Painted)
    : result RectangularButton.Painted :=
  match vs with
  | [] => Ok p
  | v :: rest =>
      p' ← RectangularButton.updateAppearance IDLE OVER PRESSED DISABLED
             DISABLED_PRESSED toString s o v p;
      updates s o rest p'
  end.

Definition enabledStates : list Value := [IDLE; OVER; PRESSED].

Definition disabledStates : list Value := [DISABLED; DISABLED_PRESSED].

End WithInteractionStates.

End AppearanceHistories.

(** ** Sample inputs *)

Module Samples.

(** Listener 1 registers listener 7 and removes listener 2 when it is
    called; every other listener leaves the registrations alone. *)
Definition sampleBody (l : PushButtonModel.Listener) : list PushButtonModel.Cmd :=
  match l with
  | 1%nat => [PushButtonModel.CallAddListener 7%nat;
              PushButtonModel.CallRemoveListener 2%nat]
  | _ => []
  end.

(** A fire-on-hold button with one listener. *)
Definition holdOptions : PushButtonModel.Options :=
  PushButtonModel.mkOptions false (Some 1%nat) true 400 100.

(** A button that fires on the way down and on hold, and whose one listener
    disables the button: [model.enabledProperty.set( false )]. *)
Definition fireOnDownAndHoldOptions : PushButtonModel.Options :=
  PushButtonModel.mkOptions true (Some 1%nat) true 400 100.

Definition disablingCode (l : PushButtonModel.Listener)
    : list PushButtonReentrancy.Call :=
  match l with
  | 1%nat => [PushButtonReentrancy.SetEnabledProperty false]
  | _ => []
  end.

(** A button that fires on the way down, and one that fires on the way up. *)
Definition fireOnDownOptions : PushButtonModel.Options :=
  PushButtonModel.mkOptions true (Some 1%nat) false 400 100.

Definition fireOnUpOptions : PushButtonModel.Options :=
  PushButtonModel.mkOptions false (Some 1%nat) false 400 100.

(** Two histories that end with the pointer over a pressed, disabled
    button. *)
Definition historyA : list PushButtonModel.Op :=
  [PushButtonModel.SetOver true; PushButtonModel.SetDown true;
   PushButtonModel.SetEnabled false].

Definition historyB : list PushButtonModel.Op :=
  [PushButtonModel.SetEnabled false; PushButtonModel.SetDown true;
   PushButtonModel.SetDown false; PushButtonModel.Tick;
   PushButtonModel.SetOver true; PushButtonModel.SetDown true].

(** A model with the listeners 1 and 2. *)
Definition twoListeners : PushButtonModel.Model :=
  PushButtonModel.run sampleBody (PushButtonModel.new sampleBody fireOnUpOptions)
    [PushButtonModel.AddListener 2%nat].

(** A sticky toggle between the strings off and on, with the pointer over
    it; and the same after one press and release. *)
Definition stickyEnter : list (StickyToggleButtonModel.Op string) :=
  [StickyToggleButtonModel.SetOver true].

Definition stickyFirstGesture : list (StickyToggleButtonModel.Op string) :=
  [StickyToggleButtonModel.SetOver true; StickyToggleButtonModel.SetDown true;
   StickyToggleButtonModel.SetDown false].

Definition stickyUp : StickyToggleButtonModel.Model string :=
  StickyToggleButtonModel.mkModel "off" "on" "off" true false true true 0.

Definition stickyDown : StickyToggleButtonModel.Model string :=
  StickyToggleButtonModel.mkModel "off" "on" "on" true false true true 1.



(** An experimental toggle model with pointer 1 over it. *)
Definition toggleOver : ToggleButtonModel.Model :=
  ToggleButtonModel.mkModel None (Some 1%nat) true "over" true.

(** A rectangular button around a content node of 100 by 40, with negative
    margins. *)
Definition negativeMargins : RectangularButton.Options :=
  RectangularButton.mkOptions (Some (100, 40)) 10 10 (-8) (-5)
    RectangularButton.StrokeUndefined "center" "center" RectangularButton.ThreeD.

Definition badAlign : RectangularButton.Options :=
  RectangularButton.mkOptions None 10 10 8 5
    RectangularButton.StrokeUndefined "middle" "center" RectangularButton.ThreeD.

Definition diagonalSlider : Slider.Options :=
  Slider.mkOptions "diagonal" None.

Definition noMarginComboBox : ComboBox.Options :=
  ComboBox.mkOptions "left" "below" (1 # 2)%Q 0 8.

(** Paints that were on the nodes before an update. *)
Definition blank : RectangularButton.Painted :=
  RectangularButton.mkPainted
    (RectangularButton.mkNode RectangularButton.BaseColor RectangularButton.NoPaint)
    (RectangularButton.mkNode RectangularButton.NoPaint RectangularButton.NoPaint).

End Samples.

(* ===================================================================== *)
(** * Part II: properties                                                 *)
(* ===================================================================== *)

(** ** The listener list of PushButtonModel *)

Section ListenerList.

Import PushButtonModel.

Lemma indexOfFrom_absent (l : Listener) (ls : list Listener) (i : Z) :
  l ∉ ls -> indexOfFrom l ls i = -1.
Proof.
  revert i. induction ls as [|x xs IH]; intros i Hnot; simpl; [reflexivity|].
  destruct (Nat.eqb_spec x l) as [->|Hne].
  - exfalso. apply Hnot. left.
  - apply IH. intros Hin. apply Hnot. by right.
Qed.

Lemma indexOfFrom_present (l : Listener) (ls : list Listener) (i : Z) :
  l ∈ ls -> 0 <= i -> i <= indexOfFrom l ls i.
Proof.
  revert i. induction ls as [|x xs IH]; intros i Hin Hi; simpl.
  - by apply elem_of_nil in Hin.
  - destruct (Nat.eqb_spec x l) as [->|Hne]; [lia|].
    apply elem_of_cons in Hin as [->|Hin]; [done|].
    specialize (IH (i + 1) Hin). lia.
Qed.

Lemma indexOf_absent (l : Listener) (ls : list Listener) :
  l ∉ ls -> indexOf l ls = -1.
Proof. apply indexOfFrom_absent. Qed.

Lemma indexOf_present (l : Listener) (ls : list Listener) :
  l ∈ ls -> indexOf l ls <> -1.
Proof. intros Hin. pose proof (indexOfFrom_present l ls 0 Hin). unfold indexOf. lia. Qed.

Lemma addListener_registered (l : Listener) (m : Model) :
  l ∈ listeners m -> addListener l m = m.
Proof.
  intros Hin. unfold addListener.
  destruct (Z.eqb_spec (indexOf l (listeners m)) (-1)) as [E|_]; [|reflexivity].
  by apply indexOf_present in Hin.
Qed.

Lemma addListener_fresh (l : Listener) (m : Model) :
  l ∉ listeners m -> listeners (addListener l m) = listeners m ++ [l].
Proof.
  intros Hnot. unfold addListener. by rewrite indexOf_absent.
Qed.

Lemma removeListener_unregistered (l : Listener) (m : Model) :
  l ∉ listeners m -> removeListener l m = m.
Proof.
  intros Hnot. unfold removeListener. by rewrite indexOf_absent.
Qed.

Lemma addListener_NoDup (l : Listener) (m : Model) :
  NoDup (listeners m) -> NoDup (listeners (addListener l m)).
Proof.
  intros Hnd. destruct (decide (l ∈ listeners m)) as [Hin|Hnot].
  - by rewrite addListener_registered.
  - rewrite addListener_fresh by done.
    apply NoDup_app. split; [done|]. split; [|apply NoDup_singleton].
    intros x Hx Hx'. apply list_elem_of_singleton in Hx'. by subst.
Qed.

Lemma removeListener_NoDup (l : Listener) (m : Model) :
  NoDup (listeners m) -> NoDup (listeners (removeListener l m)).
Proof.
  intros Hnd. unfold removeListener.
  destruct (negb _); [|done]. simpl.
  eapply sublist_NoDup; [done|apply sublist_delete].
Qed.

End ListenerList.

(** ** Frame properties of [fire] and of the steps of PushButtonModel *)

Section PushButtonFrames.

Import PushButtonModel.

Variable body : Listener -> list Cmd.

Lemma sameButton_refl (m : Model) : sameButton m m.
Proof. by repeat split. Qed.

Lemma sameButton_trans (m1 m2 m3 : Model) :
  sameButton m1 m2 -> sameButton m2 m3 -> sameButton m1 m3.
Proof.
  unfold sameButton. intros (?&?&?&?&?&?) (?&?&?&?&?&?).
  repeat split; congruence.
Qed.

Lemma exec_same (m : Model) (c : Cmd) :
  sameButton m (exec m c) /\ callLog (exec m c) = callLog m.
Proof.
  destruct c as [l|l]; simpl; unfold addListener, removeListener;
    repeat case_match; by repeat split.
Qed.

Lemma exec_NoDup (m : Model) (c : Cmd) :
  NoDup (listeners m) -> NoDup (listeners (exec m c)).
Proof.
  destruct c; simpl; [apply addListener_NoDup|apply removeListener_NoDup].
Qed.

Lemma execs_same (cs : list Cmd) (m : Model) :
  sameButton m (fold_left exec cs m) /\ callLog (fold_left exec cs m) = callLog m.
Proof.
  revert m. induction cs as [|c cs IH]; intros m; simpl.
  - split; [apply sameButton_refl|done].
  - destruct (IH (exec m c)) as [Hs Hc]. destruct (exec_same m c) as [Hs' Hc'].
    split; [by eapply sameButton_trans|congruence].
Qed.

Lemma execs_NoDup (cs : list Cmd) (m : Model) :
  NoDup (listeners m) -> NoDup (listeners (fold_left exec cs m)).
Proof.
  revert m. induction cs as [|c cs IH]; intros m Hnd; simpl; [done|].
  by apply IH, exec_NoDup.
Qed.

Lemma invoke_same (m : Model) (l : Listener) :
  sameButton m (invoke body m l) /\ callLog (invoke body m l) = callLog m ++ [l].
Proof.
  unfold invoke. destruct (execs_same (body l) (log_call l m)) as [Hs Hc].
  split; [|by rewrite Hc].
  eapply sameButton_trans; [|exact Hs]. by repeat split.
Qed.

Lemma invoke_NoDup (m : Model) (l : Listener) :
  NoDup (listeners m) -> NoDup (listeners (invoke body m l)).
Proof. intros Hnd. unfold invoke. by apply execs_NoDup. Qed.

(** The loop of [fire] calls the listeners of the list it is given, in
    order, whatever they do to the listener list of the model. *)
Lemma invokes_same (ls : list Listener) (m : Model) :
  sameButton m (fold_left (invoke body) ls m) /\
  callLog (fold_left (invoke body) ls m) = callLog m ++ ls.
Proof.
  revert m. induction ls as [|l ls IH]; intros m; simpl.
  - split; [apply sameButton_refl|by rewrite app_nil_r].
  - destruct (IH (invoke body m l)) as [Hs Hc].
    destruct (invoke_same m l) as [Hs' Hc'].
    split; [by eapply sameButton_trans|].
    by rewrite Hc, Hc', <- app_assoc.
Qed.

Lemma invokes_NoDup (ls : list Listener) (m : Model) :
  NoDup (listeners m) -> NoDup (listeners (fold_left (invoke body) ls m)).
Proof.
  revert m. induction ls as [|l ls IH]; intros m Hnd; simpl; [done|].
  by apply IH, invoke_NoDup.
Qed.

Lemma fire_frame (s : FireSource) (m : Model) :
  options (fire body s m) = options m /\ over (fire body s m) = over m /\
  down (fire body s m) = down m /\ enabled (fire body s m) = enabled m /\
  timer (fire body s m) = timer m /\
  fireLog (fire body s m) = fireLog m ++ [s] /\
  callLog (fire body s m) = callLog m ++ listeners m.
Proof.
  unfold fire.
  destruct (invokes_same (listeners m) (log_fire s m)) as [(?&?&?&?&?&?) Hc].
  by repeat split.
Qed.

Lemma fire_NoDup (s : FireSource) (m : Model) :
  NoDup (listeners m) -> NoDup (listeners (fire body s m)).
Proof. intros Hnd. unfold fire. by apply invokes_NoDup. Qed.

End PushButtonFrames.

(** ** Steps of PushButtonModel *)

(** Replaces a call of [fire] in the goal by a model known only through
    [fire_frame]. *)
Ltac abstract_fire :=
  match goal with
  | |- context [PushButtonModel.fire ?b ?s ?m] =>
      let H := fresh "Hfire" in
      let Hnd := fresh "Hnodup" in
      let m' := fresh "m'" in
      pose proof (fire_frame b s m) as H;
      pose proof (fire_NoDup b s m) as Hnd;
      set (m' := PushButtonModel.fire b s m) in *; clearbody m';
      destruct m'; simpl in H, Hnd;
      destruct H as (?&?&?&?&?&?&?); subst
  end.

Ltac unfold_step :=
  unfold PushButtonModel.step, PushButtonModel.setOver, PushButtonModel.setDown,
    PushButtonModel.setEnabled, PushButtonModel.downListener,
    PushButtonModel.enabledListener, PushButtonModel.timer_tick,
    PushButtonModel.timer_stop, PushButtonModel.timer_start,
    PushButtonModel.timer_fire, PushButtonModel.addListener,
    PushButtonModel.removeListener, PushButtonModel.timerRunning,
    PushButtonModel.timerFires, PushButtonModel.isRunning in *; simpl in *.

Ltac crush_step :=
  unfold_step;
  repeat (first [ abstract_fire | case_match; simpl in *; subst ]);
  simplify_eq; simpl in *.

Section PushButtonSteps.

Import PushButtonModel.

Variable body : Listener -> list Cmd.

Lemma step_options (m : Model) (op : Op) :
  options (step body m op) = options m.
Proof. destruct m, op; crush_step; try done. Qed.

Lemma step_timer_None (m : Model) (op : Op) :
  timer m = None -> timer (step body m op) = None.
Proof. intros Ht. destruct m, op; crush_step; try done. Qed.

Lemma step_timer_Some (m : Model) (op : Op) :
  is_Some (timer m) -> is_Some (timer (step body m op)).
Proof. intros [t Ht]. destruct m, op; crush_step; eauto. Qed.

Lemma step_NoDup (m : Model) (op : Op) :
  NoDup (listeners m) -> NoDup (listeners (step body m op)).
Proof.
  intros Hnd. destruct op; simpl;
    try (by apply addListener_NoDup); try (by apply removeListener_NoDup);
    try (by apply fire_NoDup).
  all: destruct m; crush_step; eauto.
Qed.

End PushButtonSteps.

(** ** Histories of a PushButtonModel *)

Section PushButtonHistories.

Import PushButtonModel.

Variable body : Listener -> list Cmd.

Lemma run_snoc (m : Model) (ops : list Op) (op : Op) :
  run body m (ops ++ [op]) = step body (run body m ops) op.
Proof. unfold run. by rewrite fold_left_app. Qed.

Lemma new_options (o : Options) : options (new body o) = o.
Proof. destruct o as [[|] l [|] d i]; reflexivity. Qed.

Lemma new_timer (o : Options) :
  timer (new body o) =
  if fireOnHold o
  then Some (mkTimer (fireOnHoldDelay o) (fireOnHoldInterval o) Idle false)
  else None.
Proof. destruct o as [[|] l [|] d i]; reflexivity. Qed.

Lemma new_NoDup (o : Options) : NoDup (listeners (new body o)).
Proof.
  destruct o as [[|] [l|] [|] d i]; cbn;
    first [apply NoDup_singleton | apply NoDup_nil_2].
Qed.

Lemma run_options (m : Model) (ops : list Op) :
  options (run body m ops) = options m.
Proof.
  induction ops as [|op ops IH] using rev_ind; [done|].
  by rewrite run_snoc, step_options.
Qed.

Lemma run_timer_None (m : Model) (ops : list Op) :
  timer m = None -> timer (run body m ops) = None.
Proof.
  intros Ht. induction ops as [|op ops IH] using rev_ind; [done|].
  rewrite run_snoc. by apply step_timer_None.
Qed.

Lemma run_NoDup (m : Model) (ops : list Op) :
  NoDup (listeners m) -> NoDup (listeners (run body m ops)).
Proof.
  intros Hnd. induction ops as [|op ops IH] using rev_ind; [done|].
  rewrite run_snoc. by apply step_NoDup.
Qed.

(** Without a timer, a step calls [fire] when the claim says so, once. *)
Lemma step_fires (m : Model) (op : Op) :
  timer m = None ->
  fireLog (step body m op) =
  fireLog m ++ (if spec_fires (options m) op m then [FromModel] else []).
Proof.
  intros Ht. destruct m as [[fd li fh de it] ov dn en ls tm fl cl].
  simpl in Ht. subst tm.
  destruct op as [b|b|b|l|l| |]; try destruct b; destruct dn, ov, en, fd;
    crush_step; rewrite ?app_nil_r; done.
Qed.

End PushButtonHistories.

(** ** PushButtonModel: the claims *)

Section PushButtonClaims.

Import PushButtonModel PushButtonInteractionStateProperty.

Variable body : Listener -> list Cmd.

(** C2.  A model built without fireOnHold calls [fire] in a step exactly
    when the claim says so, and then once: with fireOnDown, when
    [downProperty] goes from false to true while the model is enabled;
    without fireOnDown, when [downProperty] goes from true to false while
    the pointer is over the button and the model is enabled. *)
Theorem fire_on_down_or_on_up
    (o : Options) (history : list Op) (op : Op) :
  fireOnHold o = false ->
  let m := run body (new body o) history in
  fireLog (step body m op) =
  fireLog m ++ (if spec_fires o op m then [FromModel] else []).
Proof.
  intros Hhold m.
  assert (Ht : timer m = None).
  { subst m. apply run_timer_None. by rewrite new_timer, Hhold. }
  rewrite (step_fires body m op Ht). subst m.
  by rewrite run_options, new_options.
Qed.

(** The derived property always holds the derivation of the current flags. *)
Lemma buttonStep_derived (b : Button) (op : Op) :
  interactionState b = derive (model b) ->
  interactionState (buttonStep body b op) = derive (model (buttonStep body b op)).
Proof.
  intros Hinv. unfold buttonStep. cbn [model interactionState].
  destruct (tuple_eqb (tuple (model b)) (tuple (step body (model b) op))) eqn:Heq;
    [|done].
  rewrite Hinv. unfold derive, tuple, tuple_eqb in *.
  apply andb_prop in Heq as [Heq He]. apply andb_prop in Heq as [Ho Hd].
  apply eqb_prop in He, Ho, Hd. by rewrite He, Ho, Hd.
Qed.

Lemma buttonRun_derived (ops : list Op) (b : Button) :
  interactionState b = derive (model b) ->
  interactionState (buttonRun body b ops) = derive (model (buttonRun body b ops)).
Proof.
  revert b. induction ops as [|op ops IH]; intros b Hinv; simpl; [done|].
  by apply IH, buttonStep_derived.
Qed.

(** C3.  Two push buttons, whatever their options and histories, that have
    the same flags (over, down, enabled) have the same interaction state;
    and re-enabling a disabled button gives the state derived from its
    current over and down flags. *)
Theorem interaction_state_depends_on_flags_only
    (o1 o2 : Options) (h1 h2 : list Op) :
  let b1 := buttonRun body (newButton body o1) h1 in
  let b2 := buttonRun body (newButton body o2) h2 in
  (tuple (model b1) = tuple (model b2) ->
   interactionState b1 = interactionState b2) /\
  (enabled (model b1) = false ->
   interactionState (buttonStep body b1 (SetEnabled true)) =
   derivation (over (model b1)) (down (model b1)) true).
Proof.
  intros b1 b2.
  assert (H1 : interactionState b1 = derive (model b1))
    by (subst b1; apply buttonRun_derived; reflexivity).
  assert (H2 : interactionState b2 = derive (model b2))
    by (subst b2; apply buttonRun_derived; reflexivity).
  split.
  - intros Ht. rewrite H1, H2. unfold derive, tuple in *.
    injection Ht as Ho Hd He. by rewrite Ho, Hd, He.
  - intros Hen. rewrite buttonStep_derived by done.
    unfold buttonStep, derive. simpl.
    destruct (model b1) as [? ? ? en ? ? ? ?]. simpl in Hen. subst en.
    reflexivity.
Qed.

(** C9.  [addListener] of a registered listener and [removeListener] of an
    unregistered one change nothing; [addListener] is idempotent and keeps
    the listener list free of duplicates. *)
Theorem addListener_removeListener_noop (l : Listener) (m : Model) :
  (l ∈ listeners m -> addListener l m = m) /\
  (l ∉ listeners m -> removeListener l m = m) /\
  addListener l (addListener l m) = addListener l m /\
  (NoDup (listeners m) -> NoDup (listeners (addListener l m))).
Proof.
  split; [apply addListener_registered|].
  split; [apply removeListener_unregistered|].
  split; [|apply addListener_NoDup].
  apply addListener_registered.
  destruct (decide (l ∈ listeners m)) as [Hin|Hnot].
  - by rewrite addListener_registered.
  - rewrite addListener_fresh by done. apply elem_of_app. right. left.
Qed.

(** C10.  After any history of a model, a call of [fire] invokes the
    listeners that are registered when the call begins, in the order of
    their registration, each once (the list has no duplicates), and nothing
    else: what the listeners do to the list while they run does not matter. *)
Theorem fire_invokes_listeners_registered_at_start
    (o : Options) (history : list Op) (s : FireSource) :
  let m := run body (new body o) history in
  callLog (fire body s m) = callLog m ++ listeners m /\
  NoDup (listeners m).
Proof.
  intros m. split.
  - apply fire_frame.
  - subst m. apply run_NoDup, new_NoDup.
Qed.

End PushButtonClaims.

(** ** PushButtonModel: listeners that call back into the model *)

Lemma bind_Ok {A B : Type} (a : A) (k : A -> result B) : (Ok a ≫= k) = k a.
Proof. reflexivity. Qed.

Section ListOnlyListeners.

Import PushButtonModel.

Variable body : Listener -> list Cmd.

Local Abbreviation code := (fun l : Listener => PushButtonReentrancy.ofCmd <$> body l).

Lemma call_ofCmd (k : nat) (m : Model) (c : Cmd) :
  PushButtonReentrancy.call code (S k) m (PushButtonReentrancy.ofCmd c) =
  Ok (exec m c).
Proof. by destruct c. Qed.

Lemma calls_ofCmd (k : nat) (cs : list Cmd) (m : Model) :
  foldM (PushButtonReentrancy.call code (S k)) (PushButtonReentrancy.ofCmd <$> cs) m =
  Ok (fold_left exec cs m).
Proof.
  revert m. induction cs as [|c cs IH]; intros m; [done|].
  cbn [fmap list_fmap foldM fold_left]. rewrite call_ofCmd, bind_Ok. apply IH.
Qed.

Lemma invoke_of_list_only_listeners (k : nat) (m : Model) (l : Listener) :
  PushButtonReentrancy.invoke code (PushButtonReentrancy.call code (S k)) m l =
  Ok (invoke body m l).
Proof. unfold PushButtonReentrancy.invoke, invoke. apply calls_ofCmd. Qed.

Lemma fire_of_list_only_listeners (k : nat) (s : FireSource) (m : Model) :
  PushButtonReentrancy.fire code (PushButtonReentrancy.call code (S k)) s m =
  Ok (fire body s m).
Proof.
  unfold PushButtonReentrancy.fire, fire. cbv zeta.
  generalize (log_fire s m). induction (listeners m) as [|l ls IH]; intros m0; [done|].
  cbn [foldM fold_left]. rewrite invoke_of_list_only_listeners, bind_Ok. apply IH.
Qed.

Lemma timer_fire_of_list_only_listeners (k : nat) (m : Model) :
  PushButtonReentrancy.timer_fire code (PushButtonReentrancy.call code (S k)) m =
  Ok (timer_fire body m).
Proof.
  unfold PushButtonReentrancy.timer_fire, timer_fire.
  by rewrite fire_of_list_only_listeners, bind_Ok.
Qed.

Lemma timer_stop_of_list_only_listeners (k : nat) (f : bool) (m : Model) :
  PushButtonReentrancy.timer_stop code (PushButtonReentrancy.call code (S k)) f m =
  Ok (timer_stop body f m).
Proof.
  unfold PushButtonReentrancy.timer_stop, timer_stop.
  destruct (timer m) as [t|]; [|done]. destruct (isRunning t); [|done].
  cbv zeta. destruct (f && negb (fired t)); [|done].
  apply timer_fire_of_list_only_listeners.
Qed.

Lemma downListener_of_list_only_listeners (k : nat) (d : bool) (m : Model) :
  PushButtonReentrancy.downListener code (PushButtonReentrancy.call code (S k)) d m =
  Ok (downListener body d m).
Proof.
  unfold PushButtonReentrancy.downListener, downListener. destruct d.
  - destruct (enabled m); [|done].
    destruct (fireOnDown (options m)); [|by rewrite bind_Ok].
    by rewrite fire_of_list_only_listeners, bind_Ok.
  - cbv zeta. destruct (timer m) as [t|].
    + apply timer_stop_of_list_only_listeners.
    + destruct (negb _ && _ && _); [|done]. apply fire_of_list_only_listeners.
Qed.

Lemma enabledListener_of_list_only_listeners (k : nat) (e : bool) (m : Model) :
  PushButtonReentrancy.enabledListener code (PushButtonReentrancy.call code (S k)) e m =
  Ok (enabledListener body e m).
Proof.
  unfold PushButtonReentrancy.enabledListener, enabledListener.
  destruct (negb e); [|done]. destruct (timer m) as [t|]; [|done].
  apply timer_stop_of_list_only_listeners.
Qed.

(** With listeners that touch nothing but the list of listeners, a step of
    the model returns, with one level of nesting, what PushButtonModel.step
    says. *)
Lemma step_of_list_only_listeners (k : nat) (m : Model) (op : Op) :
  PushButtonReentrancy.step code (S k) m op = Ok (step body m op).
Proof.
  destruct op as [b|b|b|l|l| |]; cbn [PushButtonReentrancy.step PushButtonReentrancy.call step];
    try reflexivity.
  - unfold setDown. destruct (Bool.eqb (down m) b); [done|].
    apply downListener_of_list_only_listeners.
  - unfold setEnabled. destruct (Bool.eqb (enabled m) b); [done|].
    apply enabledListener_of_list_only_listeners.
  - apply fire_of_list_only_listeners.
  - unfold PushButtonReentrancy.timer_tick, timer_tick.
    destruct (timer m) as [t|]; [|done]. destruct (isRunning t); [|done].
    apply timer_fire_of_list_only_listeners.
Qed.

Lemma run_of_list_only_listeners (k : nat) (ops : list Op) (m : Model) :
  PushButtonReentrancy.run code (S k) m ops = Ok (run body m ops).
Proof.
  unfold PushButtonReentrancy.run, run. revert m.
  induction ops as [|op ops IH]; intros m; [done|].
  cbn [foldM fold_left]. rewrite step_of_list_only_listeners, bind_Ok. apply IH.
Qed.

Lemma new_of_list_only_listeners (k : nat) (o : Options) :
  PushButtonReentrancy.new code (S k) o = Ok (new body o).
Proof.
  unfold PushButtonReentrancy.new, new. cbv zeta.
  rewrite downListener_of_list_only_listeners, bind_Ok.
  apply enabledListener_of_list_only_listeners.
Qed.

End ListOnlyListeners.

Section ReentrantDisable.

Import PushButtonModel Samples.

(** C1.  The claim fails on a button that fires on the way down and on
    hold and whose listener disables the button.  The pointer enters and
    presses: the down listener reads [enabledProperty], calls [fire], the
    listener sets [enabledProperty] to false while the button is held down,
    the enabled listener stops a timer that is not running yet, and then
    the down listener starts the timer.  The button is disabled and held,
    the timer runs, and the next three callbacks of the timer call [fire],
    without a new press. *)
Theorem listener_disabling_on_press_leaves_timer_running :
  exists held later,
    (PushButtonReentrancy.new disablingCode 1 fireOnDownAndHoldOptions ≫= λ m0,
       PushButtonReentrancy.run disablingCode 1 m0 [SetOver true; SetDown true])
      = Ok held /\
    enabled held = false /\ down held = true /\ timerRunning held = true /\
    fireLog held = [FromModel] /\ callLog held = [1%nat] /\
    PushButtonReentrancy.run disablingCode 1 held [Tick; Tick; Tick] = Ok later /\
    enabled later = false /\ down later = true /\
    fireLog later = [FromModel; FromTimer; FromTimer; FromTimer] /\
    timerFires later = 3%nat.
Proof.
  exists (mkModel fireOnDownAndHoldOptions true true false [1%nat]
            (Some (mkTimer 400 100 DelayPending false)) [FromModel] [1%nat]).
  exists (mkModel fireOnDownAndHoldOptions true true false [1%nat]
            (Some (mkTimer 400 100 IntervalPending true))
            [FromModel; FromTimer; FromTimer; FromTimer]
            [1%nat; 1%nat; 1%nat; 1%nat]).
  repeat split; vm_compute; reflexivity.
Qed.

End ReentrantDisable.

(** ** StickyToggleButtonModel: the nested notifications *)

Section StickyNesting.

Import StickyToggleButtonModel.

Context {V : Type} `{!EqDecision V}.
Variable assertions : bool.

Lemma downProperty_set_S (k : nat) (d : bool) (m : Model V) :
  downProperty_set assertions (S k) d m =
  if Bool.eqb (down m) d then Ok m
  else downListener assertions (downProperty_set assertions k) d (set_down d m).
Proof. reflexivity. Qed.

Lemma downProperty_set_same (k : nat) (d : bool) (m : Model V) :
  down m = d -> downProperty_set assertions (S k) d m = Ok m.
Proof. intros <-. cbn [downProperty_set]. by destruct (down m). Qed.

(** The toggle of a press: the button is down, the value is [valueUp]. *)
Lemma toggle_on_press (k : nat) (m : Model V) :
  down m = true -> value m = valueUp m ->
  toggle assertions (downProperty_set assertions (S k)) m =
  Ok (set_value (valueDown m) (count_toggle m)).
Proof.
  intros Hd Hv. unfold toggle, toggleListener, assert.
  destruct m as [up dn v ov dw en pwd n]. cbn in *. subst.
  rewrite bool_decide_eq_true_2 by done. cbn.
  rewrite andb_false_r. cbn.
  unfold valueProperty_set, valuePropertyListener. cbn.
  case_bool_decide; [by subst|].
  by rewrite bool_decide_eq_true_2.
Qed.

(** The toggle of a release: the button is up, the value is [valueDown]. *)
Lemma toggle_on_release (k : nat) (m : Model V) :
  down m = false -> value m = valueDown m ->
  toggle assertions (downProperty_set assertions (S k)) m =
  Ok (set_value (valueUp m) (count_toggle m)).
Proof.
  intros Hd Hv. unfold toggle, toggleListener, assert.
  destruct m as [up dn v ov dw en pwd n]. cbn in *. subst.
  rewrite (bool_decide_eq_true_2 (dn = dn)) by done.
  rewrite orb_true_r. cbn. rewrite andb_false_r. cbn.
  unfold valueProperty_set, valuePropertyListener. cbn.
  destruct (decide (dn = up)) as [->|Hne].
  - repeat (rewrite (bool_decide_eq_true_2 (up = up)) by done; cbn).
    reflexivity.
  - rewrite (bool_decide_eq_false_2 (dn = up)) by done. cbn.
    rewrite !(bool_decide_eq_false_2 (up = dn)) by congruence.
    by rewrite (bool_decide_eq_false_2 (dn = up)).
Qed.

(** With two units of fuel or more, [downProperty.set] returns, and returns
    what [setDown] says. *)
Lemma downProperty_set_setDown (k : nat) (d : bool) (m : Model V) :
  downProperty_set assertions (S (S k)) d m = Ok (setDown d m).
Proof.
  rewrite downProperty_set_S. unfold setDown.
  destruct (Bool.eqb (down m) d) eqn:Hsame; [reflexivity|].
  unfold downListener. cbv zeta.
  set (m0 := set_down d m).
  assert (Hd0 : down m0 = d) by reflexivity.
  destruct (enabled m0 && over m0) eqn:Heo.
  - destruct d; cbn [andb negb].
    + destruct (bool_decide (value m0 = valueUp m0)) eqn:Hup.
      * apply bool_decide_eq_true_1 in Hup.
        rewrite (toggle_on_press k m0 Hd0 Hup). by rewrite !bind_Ok.
      * by rewrite !bind_Ok.
    + rewrite !bind_Ok.
      destruct (bool_decide (value m0 = valueDown m0)) eqn:Hdn.
      * apply bool_decide_eq_true_1 in Hdn.
        destruct (pressedWhileDown m0) eqn:Hp.
        -- rewrite (toggle_on_release k m0 Hd0 Hdn), bind_Ok.
           by destruct (negb (over _)).
        -- rewrite bind_Ok. by destruct (negb (over _)).
      * rewrite bind_Ok. by destruct (negb (over _)).
  - rewrite bind_Ok. by destruct (negb d && negb (over m0)).
Qed.

(** The steps of a model, with the nested notifications followed through. *)
Lemma step_closed (k : nat) (m : Model V) (op : Op V) :
  step assertions (S (S k)) m op =
  match op with
  | SetOver b => Ok (setOver b m)
  | SetDown d => Ok (setDown d m)
  | SetEnabled b => Ok (setEnabled b m)
  | SetValue x =>
      Ok (if bool_decide (value m = x) then m
          else setDown (bool_decide (x = valueDown m)) (set_value x m))
  | Toggle =>
      let m1 := count_toggle m in
      let x := if bool_decide (value m = valueUp m) then valueDown m else valueUp m in
      _ ← assert assertions
            (bool_decide (value m = valueUp m) || bool_decide (value m = valueDown m))
            "unrecognized value";
      Ok (if bool_decide (value m = x) then m1
          else setDown (bool_decide (x = valueDown m)) (set_value x m1))
  end.
Proof.
  destruct op as [b|d|b|x|]; cbn [step]; try reflexivity.
  - apply downProperty_set_setDown.
  - unfold valueProperty_set, valuePropertyListener.
    case_bool_decide; [done|]. apply downProperty_set_setDown.
  - unfold toggle, toggleListener, valueProperty_set, valuePropertyListener.
    cbv zeta. destruct (assert _ _ _); try reflexivity. rewrite !bind_Ok.
    rewrite downProperty_set_setDown.
    change (value (count_toggle m)) with (value m).
    change (valueUp (count_toggle m)) with (valueUp m).
    change (valueDown (count_toggle m)) with (valueDown m).
    by case_bool_decide.
Qed.

End StickyNesting.

(** ** StickyToggleButtonModel: the guard flag *)

Ltac sticky_cases :=
  repeat (first
    [ progress simplify_eq
    | case_bool_decide
    | match goal with
      | |- context [if ?b then _ else _] => is_var b; destruct b
      | H : context [if ?b then _ else _] |- _ => is_var b; destruct b
      end
    | progress cbn in * ]).

Section StickyGuard.

Import StickyToggleButtonModel.

Context {V : Type} `{!EqDecision V}.
Variable assertions : bool.

Lemma setDown_guardReady (d : bool) (m : Model V) :
  guardReady m -> guardReady (setDown d m).
Proof.
  destruct m as [up dn v ov dw en pwd n]. unfold guardReady, setDown. cbn.
  intros Hinv. destruct d, dw, en, ov; cbn; sticky_cases; try done; try tauto.
Qed.

Lemma step_guardReady (k : nat) (m m' : Model V) (op : Op V) :
  guardReady m -> step assertions (S (S k)) m op = Ok m' -> guardReady m'.
Proof.
  intros Hinv. rewrite step_closed. destruct op as [b|d|b|x|].
  - intros [= <-]. destruct m as [up dn v ov dw en pwd n].
    unfold guardReady, setOver in *. by destruct (Bool.eqb _ _).
  - intros [= <-]. by apply setDown_guardReady.
  - intros [= <-]. destruct m as [up dn v ov dw en pwd n].
    unfold guardReady, setEnabled, enabledPropertyOnListener in *. cbn in *.
    destruct en, b; cbn; try done.
  - intros [= <-]. case_bool_decide as Hx; [done|].
    destruct m as [up dn v ov dw en pwd n].
    unfold guardReady, setDown in *. cbn in *. clear Hinv.
    destruct dw, en, ov; cbn; sticky_cases; try done.
  - cbv zeta. unfold assert.
    destruct (assertions && _); [done|]. rewrite bind_Ok. intros [= <-].
    destruct m as [up dn v ov dw en pwd n].
    unfold guardReady, setDown in *. cbn in *.
    destruct dw, en, ov; cbn; sticky_cases; try done; try tauto.
Qed.

Lemma run_guardReady (k : nat) (ops : list (Op V)) (m m' : Model V) :
  guardReady m -> run assertions (S (S k)) m ops = Ok m' -> guardReady m'.
Proof.
  revert m. induction ops as [|op ops IH]; intros m Hinv; cbn [run].
  - by intros [= <-].
  - destruct (step assertions (S (S k)) m op) as [m1| | |] eqn:Hstep; try done.
    rewrite bind_Ok. apply IH. by eapply step_guardReady.
Qed.

(** The constructor returns, with the guard flag set. *)
Lemma new_closed (k : nat) (up dn v0 : V) :
  new assertions (S (S k)) up dn v0 =
  Ok (mkModel up dn v0 false (bool_decide (v0 = dn)) true true 0).
Proof.
  unfold new. cbv zeta.
  set (m0 := mkModel up dn v0 false false true false 0).
  assert (Hlink : downListener assertions (downProperty_set assertions (S (S k)))
                    (down m0) m0 = Ok (set_pressedWhileDown true m0))
    by reflexivity.
  rewrite Hlink, bind_Ok. unfold valuePropertyListener.
  rewrite downProperty_set_setDown, bind_Ok. subst m0. unfold setDown. cbn.
  by case_bool_decide.
Qed.

Lemma new_guardReady (k : nat) (up dn v0 : V) (m : Model V) :
  new assertions (S (S k)) up dn v0 = Ok m -> guardReady m.
Proof. rewrite new_closed. by intros [= <-]. Qed.

End StickyGuard.

(** ** StickyToggleButtonModel: the claims *)

Section StickyClaims.

Import StickyToggleButtonModel.

Context {V : Type} `{!EqDecision V}.
Variable assertions : bool.

(** C4.  A sticky toggle model, after any history from its construction, is
    enabled, up, and has the pointer over it.  A press followed by a release
    then returns, and toggles exactly once: from [valueUp] it ends at
    [valueDown], and from [valueDown] it ends at [valueUp]. *)
Theorem sticky_press_release_toggles_once
    (k : nat) (up dn v0 : V) (history : list (Op V)) (m : Model V) :
  (new assertions (S (S k)) up dn v0 ≫= λ m0, run assertions (S (S k)) m0 history) = Ok m ->
  enabled m = true -> over m = true -> down m = false ->
  (value m = valueUp m ->
   exists m1 m2,
     step assertions (S (S k)) m (SetDown true) = Ok m1 /\
     step assertions (S (S k)) m1 (SetDown false) = Ok m2 /\
     value m2 = valueDown m /\ toggles m2 = S (toggles m)) /\
  (value m = valueDown m ->
   exists m1 m2,
     step assertions (S (S k)) m (SetDown true) = Ok m1 /\
     step assertions (S (S k)) m1 (SetDown false) = Ok m2 /\
     value m2 = valueUp m /\ toggles m2 = S (toggles m)).
Proof.
  intros Hreach Hen Hov Hdw.
  assert (Hguard : guardReady m).
  { destruct (new assertions (S (S k)) up dn v0) as [m0| | |] eqn:Hnew; try done.
    rewrite bind_Ok in Hreach.
    eapply run_guardReady; [|exact Hreach]. by eapply new_guardReady. }
  clear Hreach.
  split; intros Hv; exists (setDown true m), (setDown false (setDown true m));
    rewrite !step_closed; (split; [done|]); (split; [done|]);
    destruct m as [mup mdn v ov dw en pwd n]; unfold guardReady in Hguard;
    cbn in *; subst; unfold setDown; cbn.
  - sticky_cases; done.
  - specialize (Hguard eq_refl eq_refl eq_refl). subst pwd.
    sticky_cases; done.
Qed.


End StickyClaims.

(** ** The experimental ToggleButtonModel *)

Section ToggleClaims.

Import ToggleButtonModel.

Lemma isPointer_Some (x : option Pointer) (p : Pointer) :
  isPointer x p = true <-> x = Some p.
Proof.
  destruct x as [q|]; simpl; [|done].
  rewrite Nat.eqb_eq. split; congruence.
Qed.

(** C6, as amended.  A press on an enabled button by the pointer it tracks
    (or when it tracks none) sets the interaction state to 'pressed', and
    flips [buttonStateUp] at once exactly when the model was built with
    toggleOnDown.  A release of such a model never flips the value: on an
    enabled button it only recomputes the interaction state.  A model built
    without toggleOnDown (the default) flips on the release instead, when it
    is enabled and the released pointer is the one that is down and over. *)
Theorem toggle_flips_on_press_iff_toggleOnDown
    (o : Options) (p : Pointer) (m : Model) :
  (buttonEnabled m = true ->
   downPointer m = None \/ downPointer m = Some p ->
   interactionState (handleDown o p m) = "pressed" /\
   buttonStateUp (handleDown o p m) =
     (if toggleOnDown o then negb (buttonStateUp m) else buttonStateUp m)) /\
  (toggleOnDown o = true ->
   buttonStateUp (handleUp o p m) = buttonStateUp m /\
   interactionState (handleUp o p m) =
     (if buttonEnabled m then
        match overPointer m with
        | None => "idle"
        | Some _ => if buttonStateUp m then "pressed" else "over"
        end
      else interactionState m)) /\
  (toggleOnDown o = false ->
   buttonStateUp (handleUp o p m) =
     (if buttonEnabled m && isPointer (downPointer m) p && isPointer (overPointer m) p
      then negb (buttonStateUp m) else buttonStateUp m)).
Proof.
  destruct o as [tod], m as [dp op en st up]. cbn.
  split; [|split].
  - intros -> [->| ->]; unfold handleDown; cbn; rewrite Nat.eqb_refl;
      by destruct tod.
  - intros ->. unfold handleUp. cbn.
    destruct en; cbn; destruct (isPointer dp p); by cbn.
  - intros ->. unfold handleUp. cbn.
    destruct en; cbn; [|by destruct (isPointer dp p)].
    destruct (isPointer dp p) eqn:Hdp, (isPointer op p) eqn:Hop; cbn;
      rewrite ?Hdp; done.
Qed.

End ToggleClaims.

(** ** The appearance strategies of RectangularButton *)

Section AppearanceClaims.

Import RectangularButton.

Context {Value : Type} `{!EqDecision Value}.
Variables IDLE OVER PRESSED DISABLED DISABLED_PRESSED : Value.
Variable toString : Value -> string.

Local Abbreviation members :=
  (members IDLE OVER PRESSED DISABLED DISABLED_PRESSED).
Local Abbreviation updateAppearance :=
  (updateAppearance IDLE OVER PRESSED DISABLED DISABLED_PRESSED toString).

Lemma not_member (v : Value) :
  v ∉ members ->
  v <> IDLE /\ v <> OVER /\ v <> PRESSED /\ v <> DISABLED /\ v <> DISABLED_PRESSED.
Proof.
  unfold RectangularButton.members. rewrite !not_elem_of_cons. tauto.
Qed.

(** C7.  Both appearance strategies throw for a value that is none of IDLE,
    OVER, PRESSED, DISABLED and DISABLED_PRESSED.  For each of these five they
    return, having assigned a fill and a stroke: the fill of the button
    path is one of the paints of the strategy, never null, and it and the
    stroke (of the overlay for the 3D look, of the button path for the flat
    look) do not depend on the paints that were there before.  The five
    members being different values, the fill assigned is the one of the
    state, and the stroke is the enabled stroke in IDLE, OVER and PRESSED
    and the disabled stroke in DISABLED and DISABLED_PRESSED. *)
Theorem updateAppearance_throws_outside_the_enumeration
    (s : Strategy) (o : Options) (v : Value) (p : Painted) :
  (v ∉ members ->
   updateAppearance s o v p = Thrown (unsupported toString v)) /\
  (v ∈ members ->
   exists p', updateAppearance s o v p = Ok p' /\
     assignedFill p' <> NoPaint /\
     (forall q, exists q',
        updateAppearance s o v q = Ok q' /\
        assignedFill q' = assignedFill p' /\
        assignedStroke s q' = assignedStroke s p') /\
     (NoDup members ->
      (v = IDLE ->
       assignedFill p' = match s with ThreeD => UpFillVertical | Flat => BaseColor end /\
       assignedStroke s p' = enabledStroke o) /\
      (v = OVER ->
       assignedFill p' = match s with ThreeD => OverFillVertical | Flat => BaseBrighter4 end /\
       assignedStroke s p' = enabledStroke o) /\
      (v = PRESSED ->
       assignedFill p' = match s with ThreeD => DownFillVertical | Flat => BaseDarker4 end /\
       assignedStroke s p' = enabledStroke o) /\
      (v = DISABLED ->
       assignedFill p' =
         match s with ThreeD => DisabledFillVertical | Flat => DisabledBaseColor end /\
       assignedStroke s p' = disabledStroke o) /\
      (v = DISABLED_PRESSED ->
       assignedFill p' =
         match s with ThreeD => DisabledPressedFillVertical | Flat => DisabledBaseColor end /\
       assignedStroke s p' = disabledStroke o))).
Proof.
  split.
  - intros Hv. apply not_member in Hv as (?&?&?&?&?).
    destruct s; cbn; unfold updateAppearance3D, updateAppearanceFlat;
      by rewrite !bool_decide_eq_false_2.
  - intros Hv.
    assert (Hsome : forall q, exists q',
               updateAppearance s o v q = Ok q' /\
               assignedFill q' <> NoPaint /\
               assignedFill q' =
                 assignedFill (default q (match updateAppearance s o v p with
                                          | Ok p' => Some p' | _ => None end)) /\
               assignedStroke s q' =
                 assignedStroke s (default q (match updateAppearance s o v p with
                                              | Ok p' => Some p' | _ => None end))).
    { intros q. unfold RectangularButton.members in Hv.
      rewrite !elem_of_cons, elem_of_nil in Hv.
      destruct s; cbn; unfold updateAppearance3D, updateAppearanceFlat;
        repeat case_bool_decide; try (eexists; split; [reflexivity|done]);
        tauto. }
    destruct (Hsome p) as (p' & Hp & Hfill & _). exists p'.
    split; [done|]. split; [done|]. split.
    + intros q. destruct (Hsome q) as (q' & Hq & _ & Hf & Hs).
      exists q'. rewrite Hp in Hf, Hs. done.
    + unfold RectangularButton.members.
      rewrite !NoDup_cons, !not_elem_of_cons. intros Hnd.
      clear Hsome Hfill. revert Hp.
      destruct s; cbn; unfold updateAppearance3D, updateAppearanceFlat;
        repeat case_bool_decide; intros Hp; simplify_eq;
        repeat split; intros; subst; try done; exfalso; intuition congruence.
Qed.

End AppearanceClaims.

(** ** Validation of options by the constructors *)

Section ValidationClaims.

Lemma assert_fails (cond : bool) (msg : string) :
  cond = false -> assert true cond msg = AssertionFailed msg.
Proof. by intros ->. Qed.

Lemma assert_passes (b cond : bool) (msg : string) :
  cond = true -> assert b cond msg = Ok tt.
Proof. intros ->. unfold assert. by rewrite andb_false_r. Qed.

(** C8, as amended.  With assertions enabled, an assertion fails, before
    the node is built, in the constructor of a RectangularButton whose
    xAlign or yAlign is not one of the values allowed, of a Slider whose
    orientation is neither horizontal nor vertical, and of a ComboBox one
    of whose margins is not positive. *)
Theorem malformed_options_fail_assertions :
  (forall o : RectangularButton.Options,
     RectangularButton.includes RectangularButton.X_ALIGN_VALUES (RectangularButton.xAlign o) = false \/
     RectangularButton.includes RectangularButton.Y_ALIGN_VALUES (RectangularButton.yAlign o) = false ->
     isAssertionFailed (RectangularButton.construct true o) = true) /\
  (forall o : Slider.Options,
     Slider.orientation o <> "horizontal" -> Slider.orientation o <> "vertical" ->
     isAssertionFailed (Slider.construct true o) = true) /\
  (forall (listParentMaxWidth : option Z) (o : ComboBox.Options),
     ComboBox.xMargin o <= 0 \/ ComboBox.yMargin o <= 0 ->
     isAssertionFailed (ComboBox.construct true listParentMaxWidth o) = true).
Proof.
  split; [|split].
  - intros o Hbad. unfold RectangularButton.construct.
    destruct (RectangularButton.includes RectangularButton.X_ALIGN_VALUES
                (RectangularButton.xAlign o)) eqn:Hx.
    + destruct Hbad as [?|Hy]; [done|].
      rewrite (assert_passes _ _ _ eq_refl), bind_Ok.
      by rewrite (assert_fails _ _ Hy).
    + by rewrite (assert_fails _ _ eq_refl).
  - intros o Hh Hv. unfold Slider.construct.
    apply String.eqb_neq in Hh, Hv. rewrite Hh, Hv. reflexivity.
  - intros lp o Hbad. unfold ComboBox.construct.
    destruct lp as [w|]; [reflexivity|].
    rewrite (assert_passes _ _ _ eq_refl), bind_Ok.
    rewrite (assert_fails ((0 <? ComboBox.xMargin o) && (0 <? ComboBox.yMargin o)));
      [reflexivity|].
    apply andb_false_iff. rewrite !Z.ltb_ge. done.
Qed.

End ValidationClaims.

(** ** The claims at sample inputs *)

Section Witnesses.

Import Samples.

Lemma fire_on_down_or_on_up_witness :
  let pressed := [PushButtonModel.SetOver true; PushButtonModel.SetDown true] in
  let m := PushButtonModel.run sampleBody
             (PushButtonModel.new sampleBody fireOnUpOptions) pressed in
  PushButtonModel.fireLog m = [] /\
  PushButtonModel.fireLog
    (PushButtonModel.step sampleBody m (PushButtonModel.SetDown false)) =
  PushButtonModel.fireLog m ++ [PushButtonModel.FromModel].
Proof.
  split; [reflexivity|].
  apply (fire_on_down_or_on_up sampleBody fireOnUpOptions
           [PushButtonModel.SetOver true; PushButtonModel.SetDown true]
           (PushButtonModel.SetDown false)).
  reflexivity.
Defined.

Lemma interaction_state_depends_on_flags_only_witness :
  let b1 := PushButtonInteractionStateProperty.buttonRun sampleBody
              (PushButtonInteractionStateProperty.newButton sampleBody holdOptions)
              historyA in
  let b2 := PushButtonInteractionStateProperty.buttonRun sampleBody
              (PushButtonInteractionStateProperty.newButton sampleBody fireOnDownOptions)
              historyB in
  PushButtonInteractionStateProperty.interactionState b1 =
    PushButtonInteractionStateProperty.interactionState b2 /\
  PushButtonInteractionStateProperty.interactionState
    (PushButtonInteractionStateProperty.buttonStep sampleBody b1
       (PushButtonModel.SetEnabled true)) =
    PushButtonInteractionStateProperty.derivation true true true.
Proof.
  pose proof (interaction_state_depends_on_flags_only sampleBody
                holdOptions fireOnDownOptions historyA historyB) as [Hsame Hre].
  split.
  - apply Hsame. reflexivity.
  - apply Hre. reflexivity.
Defined.

Lemma addListener_removeListener_noop_witness :
  PushButtonModel.addListener 2%nat twoListeners = twoListeners /\
  PushButtonModel.removeListener 3%nat twoListeners = twoListeners /\
  NoDup (PushButtonModel.listeners (PushButtonModel.addListener 3%nat twoListeners)).
Proof.
  pose proof (addListener_removeListener_noop 2%nat twoListeners) as (Hadd & _).
  pose proof (addListener_removeListener_noop 3%nat twoListeners)
    as (_ & Hremove & _ & Hnodup).
  split; [|split].
  - apply Hadd. vm_compute. right. left.
  - apply Hremove. vm_compute. intros Hin.
    repeat (apply elem_of_cons in Hin as [?|Hin]; [done|]).
    by apply elem_of_nil in Hin.
  - apply Hnodup. vm_compute. apply NoDup_cons_2; [|apply NoDup_singleton].
    intros Hin. repeat (apply elem_of_cons in Hin as [?|Hin]; [done|]).
    by apply elem_of_nil in Hin.
Defined.

Lemma sticky_press_release_toggles_once_witness :
  (exists m1 m2,
     StickyToggleButtonModel.step true 2 stickyUp (StickyToggleButtonModel.SetDown true) = Ok m1 /\
     StickyToggleButtonModel.step true 2 m1 (StickyToggleButtonModel.SetDown false) = Ok m2 /\
     StickyToggleButtonModel.value m2 = "on" /\
     StickyToggleButtonModel.toggles m2 = 1%nat) /\
  (exists m1 m2,
     StickyToggleButtonModel.step true 2 stickyDown (StickyToggleButtonModel.SetDown true) = Ok m1 /\
     StickyToggleButtonModel.step true 2 m1 (StickyToggleButtonModel.SetDown false) = Ok m2 /\
     StickyToggleButtonModel.value m2 = "off" /\
     StickyToggleButtonModel.toggles m2 = 2%nat).
Proof.
  split.
  - apply (sticky_press_release_toggles_once true 0 "off" "on" "off"
             stickyEnter stickyUp); reflexivity.
  - apply (sticky_press_release_toggles_once true 0 "off" "on" "off"
             stickyFirstGesture stickyDown); reflexivity.
Defined.


Lemma toggle_flips_on_press_iff_toggleOnDown_witness :
  ToggleButtonModel.interactionState
    (ToggleButtonModel.handleDown (ToggleButtonModel.mkOptions true) 1%nat toggleOver)
    = "pressed" /\
  ToggleButtonModel.buttonStateUp
    (ToggleButtonModel.handleDown (ToggleButtonModel.mkOptions true) 1%nat toggleOver)
    = false.
Proof.
  apply (toggle_flips_on_press_iff_toggleOnDown
           (ToggleButtonModel.mkOptions true) 1%nat toggleOver).
  - reflexivity.
  - left. reflexivity.
Defined.

Lemma updateAppearance_throws_outside_the_enumeration_witness :
  RectangularButton.updateAppearance "IDLE" "OVER" "PRESSED" "DISABLED"
    "DISABLED_PRESSED" id RectangularButton.ThreeD
    RectangularButton.defaultOptions "SELECTED" blank =
  Thrown "unsupported interactionState: SELECTED" /\
  exists p',
    RectangularButton.updateAppearance "IDLE" "OVER" "PRESSED" "DISABLED"
      "DISABLED_PRESSED" id RectangularButton.Flat
      RectangularButton.defaultOptions "DISABLED" blank = Ok p' /\
    RectangularButton.assignedFill p' = RectangularButton.DisabledBaseColor /\
    RectangularButton.assignedStroke RectangularButton.Flat p' =
      RectangularButton.DisabledBaseDarker4.
Proof.
  split.
  - apply (updateAppearance_throws_outside_the_enumeration
             "IDLE" "OVER" "PRESSED" "DISABLED" "DISABLED_PRESSED" id
             RectangularButton.ThreeD RectangularButton.defaultOptions
             "SELECTED" blank).
    unfold RectangularButton.members. rewrite !not_elem_of_cons.
    repeat split; try discriminate. apply not_elem_of_nil.
  - destruct (proj2 (updateAppearance_throws_outside_the_enumeration
                       "IDLE" "OVER" "PRESSED" "DISABLED" "DISABLED_PRESSED" id
                       RectangularButton.Flat RectangularButton.defaultOptions
                       "DISABLED" blank))
      as (p' & Hp & _ & _ & Htable).
    { unfold RectangularButton.members. rewrite !elem_of_cons. tauto. }
    exists p'. split; [exact Hp|].
    destruct Htable as (_ & _ & _ & Hdisabled & _).
    { unfold RectangularButton.members.
      repeat (apply NoDup_cons_2;
              [rewrite ?not_elem_of_cons; repeat split;
               try discriminate; apply not_elem_of_nil|]).
      apply NoDup_nil_2. }
    apply Hdisabled. reflexivity.
Defined.

Lemma malformed_options_fail_assertions_witness :
  isAssertionFailed (RectangularButton.construct true badAlign) = true /\
  isAssertionFailed (Slider.construct true diagonalSlider) = true /\
  isAssertionFailed (ComboBox.construct true None noMarginComboBox) = true.
Proof.
  destruct malformed_options_fail_assertions as (Hr & Hs & Hc).
  split; [|split].
  - apply Hr. left. reflexivity.
  - apply Hs; discriminate.
  - apply Hc. left. reflexivity.
Defined.

(** Listener 1 removes listener 2 and registers listener 7 while [fire]
    runs: listener 2 is called all the same, listener 7 is not, and the
    list has changed when [fire] returns. *)
Example fire_iterates_over_a_copy :
  let m := PushButtonModel.fire sampleBody PushButtonModel.FromModel twoListeners in
  PushButtonModel.listeners twoListeners = [1%nat; 2%nat] /\
  PushButtonModel.callLog m = [1%nat; 2%nat] /\
  PushButtonModel.listeners m = [1%nat; 7%nat].
Proof. by repeat split. Qed.

(** A quick press and release of a fire-on-hold button fires once, through
    the timer's [stop]; a fire-on-down button fires on the press. *)
Example quick_click_fires_once :
  PushButtonModel.fireLog
    (PushButtonModel.run sampleBody (PushButtonModel.new sampleBody holdOptions)
       [PushButtonModel.SetOver true; PushButtonModel.SetDown true;
        PushButtonModel.SetDown false]) = [PushButtonModel.FromTimer] /\
  PushButtonModel.fireLog
    (PushButtonModel.run sampleBody (PushButtonModel.new sampleBody fireOnDownOptions)
       [PushButtonModel.SetOver true; PushButtonModel.SetDown true]) =
    [PushButtonModel.FromModel].
Proof. by split. Qed.

End Witnesses.

(** ** Where the claims as first stated fail *)

Section Counterexamples.

Import Samples.


(** C6 as stated: a model built with the default options does not flip its
    value on the press; it flips it on the release. *)
Lemma default_toggle_flips_on_release_not_on_press :
  let pressed := ToggleButtonModel.handleDown ToggleButtonModel.defaultOptions 1%nat toggleOver in
  ToggleButtonModel.interactionState pressed = "pressed" /\
  ToggleButtonModel.buttonStateUp pressed = ToggleButtonModel.buttonStateUp toggleOver /\
  ToggleButtonModel.buttonStateUp
    (ToggleButtonModel.handleUp ToggleButtonModel.defaultOptions 1%nat pressed) =
  negb (ToggleButtonModel.buttonStateUp toggleOver).
Proof. by repeat split. Qed.

(** C8 as stated: with assertions enabled, a RectangularButton with
    negative margins is constructed, no assertion fails; and with
    assertions disabled an invalid alignment is accepted too. *)
Lemma negative_margins_pass_RectangularButton :
  RectangularButton.xMargin negativeMargins < 0 /\
  RectangularButton.yMargin negativeMargins < 0 /\
  RectangularButton.construct true negativeMargins =
    Ok (RectangularButton.mkBuilt 84 30 ("center", "center")) /\
  isOk (RectangularButton.construct false badAlign) = true.
Proof. by repeat split. Qed.

End Counterexamples.

(* ===================================================================== *)
(** * Part III: further properties of the code                            *)
(* ===================================================================== *)

(** ** ButtonListener *)

Section ButtonListenerFacts.

Import ButtonListener.

Lemma handle_tracks (s : State) (e : Event) : tracks s -> tracks (handle s e).
Proof.
  destruct s as [op dp ov dw]. unfold tracks. cbn. intros [-> ->].
  destruct e as [p|p|p|p]; cbn.
  - destruct dp as [q|]; cbn; [|by rewrite Nat.eqb_refl].
    destruct (Nat.eqb q p); cbn; split; try done.
  - destruct dp as [q|]; cbn; [|done]. destruct (Nat.eqb q p); by cbn.
  - by destruct op as [q|].
  - destruct op as [q|]; cbn; [|done]. destruct (Nat.eqb q p); by cbn.
Qed.

(** After any sequence of input events on a listener whose model starts
    with both flags false, the model is down exactly while a pointer is
    tracked as the down pointer, and over exactly while one is tracked as
    the over pointer. *)
Theorem listener_flags_follow_tracked_pointers (es : list Event) :
  tracks (run new es).
Proof.
  unfold run. generalize new, (conj eq_refl eq_refl : tracks new).
  induction es as [|e es IH]; intros s Hs; cbn; [done|].
  by apply IH, handle_tracks.
Qed.

(** While one pointer holds the button down, presses and releases by any
    other pointer change nothing. *)
Theorem listener_ignores_other_pointers (s : State) (p : Pointer) (e : Event) :
  downPointer s = Some p -> isDownUp e = true -> pointerOf e <> p ->
  handle s e = s.
Proof.
  destruct s as [op dp ov dw]. cbn. intros -> He Hp.
  destruct e as [q|q|q|q]; cbn in *; try done;
    destruct (Nat.eqb_spec p q); by subst.
Qed.

End ButtonListenerFacts.

(** ** The experimental ToggleButtonModel *)

Section ToggleFacts.

Import ToggleButtonModel.

(** A click on an enabled toggle model (press and release by the pointer
    that is over it, no pointer being down before) flips the value exactly
    once whether the model toggles on the press or on the release, and
    leaves no pointer down.  The interaction state it ends in is 'pressed'
    when the final value equals toggleOnDown and 'over' otherwise: the
    state is computed from the value as it is before the flip of a release,
    and after the flip of a press. *)
Theorem toggle_click_flips_once (o : Options) (p : Pointer) (m : Model) :
  buttonEnabled m = true -> downPointer m = None -> overPointer m = Some p ->
  let m' := handleUp o p (handleDown o p m) in
  buttonStateUp m' = negb (buttonStateUp m) /\
  downPointer m' = None /\
  interactionState m' =
    (if Bool.eqb (buttonStateUp m') (toggleOnDown o) then "pressed" else "over").
Proof.
  destruct o as [tod], m as [dp op en st up]. cbn. intros -> -> ->.
  unfold handleDown, handleUp. cbn. rewrite Nat.eqb_refl. cbn.
  destruct tod, up; cbn; repeat (rewrite Nat.eqb_refl; cbn); by repeat split.
Qed.

(** A disabled toggle model keeps its value and its interaction state
    through presses and releases; it still tracks the pointer that is down. *)
Theorem toggle_disabled_keeps_value (o : Options) (p : Pointer) (m : Model) :
  buttonEnabled m = false ->
  buttonStateUp (handleDown o p m) = buttonStateUp m /\
  interactionState (handleDown o p m) = interactionState m /\
  buttonStateUp (handleUp o p m) = buttonStateUp m /\
  interactionState (handleUp o p m) = interactionState m /\
  (downPointer m = None -> downPointer (handleDown o p m) = Some p) /\
  (downPointer m = Some p -> downPointer (handleUp o p m) = None).
Proof.
  destruct o as [tod], m as [dp op en st up]. cbn. intros ->.
  unfold handleDown, handleUp. cbn.
  destruct dp as [q|]; cbn; [destruct (Nat.eqb_spec q p); cbn|];
    repeat split; intros; simplify_eq; done.
Qed.

(** A release by a pointer other than the one that is down never flips the
    value and does not release the down pointer, but on an enabled model it
    does reset the interaction state. *)
Theorem toggle_release_by_other_pointer (o : Options) (p q : Pointer) (m : Model) :
  downPointer m = Some p -> q <> p ->
  buttonStateUp (handleUp o q m) = buttonStateUp m /\
  downPointer (handleUp o q m) = Some p /\
  (buttonEnabled m = true ->
   interactionState (handleUp o q m) =
     match overPointer m with
     | None => "idle"
     | Some _ => if buttonStateUp m then "pressed" else "over"
     end).
Proof.
  destruct o as [tod], m as [dp op en st up]. cbn. intros -> Hq.
  assert (Hneq : Nat.eqb p q = false) by (apply Nat.eqb_neq; congruence).
  unfold handleUp. cbn. rewrite Hneq.
  destruct en; cbn; rewrite ?Hneq, ?andb_false_r; cbn; rewrite ?Hneq; by cbn.
Qed.

End ToggleFacts.

(** ** AquaRadioButton *)

Section RadioFacts.

Import AquaRadioButton.

Context {V : Type} `{!EqDecision V}.

Lemma notify_inSync (x : V) (b : Button V) : inSync x (notify x b).
Proof. by repeat split. Qed.

Lemma notify_value (x : V) (b : Button V) : value (notify x b) = value b.
Proof. reflexivity. Qed.

Lemma step_inSync (g : Group V) (op : Op V) :
  Forall (inSync (propertyValue g)) (buttons g) ->
  Forall (inSync (propertyValue (step g op))) (buttons (step g op)).
Proof.
  intros Hg. assert (Hset : forall x,
    Forall (inSync (propertyValue (setProperty x g))) (buttons (setProperty x g))).
  { intros x. unfold setProperty. case_bool_decide; [done|]. cbn.
    apply Forall_fmap, Forall_true. intros b. apply notify_inSync. }
  destruct op as [v|i|x]; cbn.
  - apply Forall_app. split; [done|]. apply Forall_singleton, notify_inSync.
  - unfold fire. by destruct (buttons g !! i).
  - apply Hset.
Qed.

Lemma run_inSync (ops : list (Op V)) (g : Group V) :
  Forall (inSync (propertyValue g)) (buttons g) ->
  Forall (inSync (propertyValue (run g ops))) (buttons (run g ops)).
Proof.
  revert g. induction ops as [|op ops IH]; intros g Hg; cbn; [done|].
  by apply IH, step_inSync.
Qed.

(** After any history of a group of radio buttons on one property (buttons
    added, buttons fired, the property set by others), every button shows
    exactly one of its two nodes, the selected one exactly when the
    property holds the value of the button; so two buttons that are both
    selected have the same value. *)
Theorem radio_buttons_show_the_property (v0 : V) (ops : list (Op V)) :
  let g := run (new v0) ops in
  Forall (inSync (propertyValue g)) (buttons g) /\
  forall b1 b2, b1 ∈ buttons g -> b2 ∈ buttons g ->
    selectedVisible b1 = true -> selectedVisible b2 = true ->
    value b1 = value b2.
Proof.
  intros g.
  assert (Hall : Forall (inSync (propertyValue g)) (buttons g))
    by (subst g; apply run_inSync; constructor).
  split; [done|]. intros b1 b2 H1 H2 Hs1 Hs2.
  rewrite Forall_forall in Hall.
  destruct (Hall b1 H1) as (E1 & _), (Hall b2 H2) as (E2 & _).
  rewrite Hs1 in E1. rewrite Hs2 in E2.
  symmetry in E1, E2. apply bool_decide_eq_true_1 in E1, E2. congruence.
Qed.

(** Firing a button of the group sets the property to its value, and the
    button is then the selected one. *)
Theorem radio_fire_selects (v0 : V) (ops : list (Op V)) (i : nat) (b : Button V) :
  buttons (run (new v0) ops) !! i = Some b ->
  let g' := fire i (run (new v0) ops) in
  propertyValue g' = value b /\
  exists b', buttons g' !! i = Some b' /\ value b' = value b /\
             selectedVisible b' = true /\ deselectedVisible b' = false.
Proof.
  intros Hb g'. subst g'. unfold fire. rewrite Hb.
  assert (Hall : Forall (inSync (propertyValue (run (new v0) ops)))
                        (buttons (run (new v0) ops)))
    by (apply run_inSync; constructor).
  set (g := run (new v0) ops) in *.
  unfold setProperty. case_bool_decide as Hsame.
  - split; [done|]. exists b. split; [done|]. split; [done|].
    rewrite Forall_forall in Hall.
    destruct (Hall b) as (Hsel & Hdes & _).
    { by eapply list_elem_of_lookup_2. }
    rewrite Hdes, Hsel, Hsame. by rewrite bool_decide_eq_true_2.
  - cbn. split; [done|]. exists (notify (value b) b).
    rewrite list_lookup_fmap, Hb. cbn. repeat split.
    + by rewrite bool_decide_eq_true_2.
    + by rewrite bool_decide_eq_true_2.
Qed.

End RadioFacts.

(** ** Dialog *)

Section DialogFacts.

Import Dialog.

Lemma popups_app (es fs : list Effect) : popups (es ++ fs) = popups es + popups fs.
Proof. induction es as [|[] es IH]; cbn; lia. Qed.

Lemma focusActiveElement_balanced (s : State) :
  balanced s -> balanced (focusActiveElement s).
Proof.
  unfold balanced, focusActiveElement. destruct (activeElement s); [|done].
  cbn. rewrite popups_app. cbn. lia.
Qed.

Lemma show_balanced (f : option FocusNode) (s : State) :
  balanced s -> balanced (show f s).
Proof.
  unfold balanced, show. destruct (isShowing s) eqn:Hs; cbn; [by rewrite Hs|].
  intros Hb. destruct (showCallback (options s)); cbn;
    rewrite !popups_app; cbn; lia.
Qed.

Lemma hide_balanced (s : State) : balanced s -> balanced (hide s).
Proof.
  unfold balanced, hide. destruct (isShowing s) eqn:Hs; cbn; [|by rewrite Hs].
  intros Hb. destruct (hideCallback (options s)); cbn;
    rewrite !popups_app; cbn; lia.
Qed.

Lemma step_balanced (s : State) (op : Op) : balanced s -> balanced (step s op).
Proof.
  intros Hb. destruct op as [f| | |a]; cbn.
  - by apply show_balanced.
  - by apply hide_balanced.
  - by apply focusActiveElement_balanced, hide_balanced.
  - destruct a; [apply focusActiveElement_balanced|]; by apply hide_balanced.
Qed.

(** Whatever is done to a dialog (show, hide, escape, close button, in any
    order and any number of times), its calls of [showPopup] and
    [hidePopup] stay paired: the sim holds one popup for the dialog while
    it is showing and none while it is not.  In particular a second [show]
    pushes no second popup and a [hide] of a hidden dialog pops nothing. *)
Theorem dialog_popups_are_paired (o : Options) (ops : list Op) :
  popups (effects (run (new o) ops)) =
  if isShowing (run (new o) ops) then 1 else 0.
Proof.
  change (balanced (run (new o) ops)). unfold run.
  assert (H0 : balanced (new o)) by reflexivity. revert H0.
  generalize (new o). induction ops as [|op ops IH]; intros s Hs; cbn; [done|].
  by apply IH, step_balanced.
Qed.

Lemma step_activeElement (s : State) (op : Op) (n : FocusNode) :
  activeElement s = Some n -> activeElement (step s op) = Some n.
Proof.
  intros Ha. destruct op as [f| | |a]; cbn;
    unfold show, hide, focusActiveElement;
    repeat (case_match; cbn in *; simplify_eq); try done; congruence.
Qed.

(** The element that gets the focus back when a dialog closes is fixed
    once it is known: the focusOnCloseNode, or else the node that had the
    focus at the first [show] that found one.  Later shows, with the focus
    elsewhere, do not change it. *)
Theorem dialog_active_element_is_kept (s : State) (ops : list Op) (n : FocusNode) :
  activeElement s = Some n -> activeElement (run s ops) = Some n.
Proof.
  unfold run. revert s. induction ops as [|op ops IH]; intros s Hs; cbn; [done|].
  by apply IH, step_activeElement.
Qed.

(** [applyDoubleMargin] takes twice the margin off a dimension only when
    something is left: its result is positive for a positive dimension,
    and not larger than the dimension when the margin is not negative. *)
Theorem applyDoubleMargin_stays_positive (dimension margin : Q) :
  (0 < dimension)%Q ->
  (0 < applyDoubleMargin dimension margin)%Q /\
  ((0 <= margin)%Q -> (applyDoubleMargin dimension margin <= dimension)%Q).
Proof.
  intros Hd. unfold applyDoubleMargin.
  destruct (Qle_bool dimension (margin * 2)) eqn:Hle; cbn.
  - split; [done|]. intros _. lra.
  - assert (~ (dimension <= margin * 2)%Q) as Hn.
    { intros H. apply Qle_bool_iff in H. congruence. }
    split; [lra|]. intros Hm. lra.
Qed.

End DialogFacts.

(** ** Panel *)

(** Arithmetic on halves, with the two cases of the maximum. *)
Ltac panel_arith Hmax :=
  lazymatch goal with |- ?A -> ?B => intros ? | _ => idtac end;
  unfold Qdiv in *; change (/ 2)%Q with (1 # 2)%Q in *;
  destruct Hmax as [[? ?]|[? ?]]; lra.

Section PanelFacts.

Import Panel.

(** A nested call of [updateBackground], made while an update is in
    progress, returns at once. *)
Lemma updateBackground_in_progress (k : nat) (o : Options) (s : State) :
  backgroundUpdateInProgress s = true -> updateBackground (S k) o s = Ok s.
Proof. intros H. cbn. by rewrite H. Qed.

Lemma moveContent_in_progress (listener : State -> result State)
    (o : Options) (l t : Q) (s : State) :
  (forall s0, backgroundUpdateInProgress s0 = true -> listener s0 = Ok s0) ->
  backgroundUpdateInProgress s = true ->
  exists s', moveContent listener o l t s = Ok s' /\
    backgroundUpdateInProgress s' = true /\
    (contentLeft s' == l)%Q /\ (contentTop s' == t)%Q /\
    contentWidth s' = contentWidth s /\ contentHeight s' = contentHeight s /\
    backgroundWidth s' = backgroundWidth s /\ backgroundHeight s' = backgroundHeight s /\
    backgroundShown s' = backgroundShown s /\ contentIncluded s' = contentIncluded s.
Proof.
  intros Hlistener H. unfold moveContent.
  destruct (Qeq_bool l (contentLeft s) && Qeq_bool t (contentTop s)) eqn:Hsame.
  - apply andb_prop in Hsame as [Hl Ht]. apply Qeq_bool_eq in Hl, Ht.
    exists s. repeat split; try done; by symmetry.
  - exists (set_content l t s).
    destruct (resize o); [rewrite Hlistener by done|]; repeat split; done.
Qed.

(** What one call of [updateBackground] leaves, for content that takes
    part in the layout and lengths that are whole numbers (on which the
    code computes without rounding): the call returns (the moves it makes
    call it again, and the flag stops the recursion), the flag is cleared,
    the background is as wide as the content with its margins and at least
    [minWidth], and the content keeps the margin to both sides and to the
    top in every alignment. *)
Theorem panel_content_keeps_its_margins (k : nat) (o : Options) (s : State) :
  integralLengths o s ->
  backgroundUpdateInProgress s = false -> contentIncluded s = true ->
  exists s', updateBackground (S (S k)) o s = Ok s' /\
    backgroundUpdateInProgress s' = false /\ backgroundShown s' = true /\
    backgroundWidth s' = Qmax (minWidth o) (contentWidth s + 2 * xMargin o) /\
    backgroundHeight s' = (contentHeight s + 2 * yMargin o)%Q /\
    contentWidth s' = contentWidth s /\ contentHeight s' = contentHeight s /\
    (xMargin o <= contentLeft s')%Q /\
    (contentLeft s' + contentWidth s' <= backgroundWidth s' - xMargin o)%Q /\
    (contentTop s' == yMargin o)%Q /\
    ((minWidth o <= contentWidth s + 2 * xMargin o)%Q ->
     (contentLeft s' == xMargin o)%Q).
Proof.
  intros _ Hflag Hinc. cbn [updateBackground]. rewrite Hflag, Hinc. cbn [negb].
  set (s3 := setRect _ _ _).
  assert (H3 : backgroundUpdateInProgress s3 = true) by reflexivity.
  pose proof (Q.max_spec (minWidth o) (contentWidth s + 2 * xMargin o)) as Hmax.
  assert (Hw : backgroundWidth s3 = Qmax (minWidth o) (contentWidth s + 2 * xMargin o))
    by reflexivity.
  assert (Hh : backgroundHeight s3 = (contentHeight s + 2 * yMargin o)%Q)
    by reflexivity.
  assert (Hcw : contentWidth s3 = contentWidth s) by reflexivity.
  assert (Hch : contentHeight s3 = contentHeight s) by reflexivity.
  assert (Hnested : forall s0, backgroundUpdateInProgress s0 = true ->
                      updateBackground (S k) o s0 = Ok s0)
    by (intros; by apply updateBackground_in_progress).
  cbn [updateBackground] in Hnested.
  destruct (String.eqb (align o) "center");
    [|destruct (String.eqb (align o) "left")].
  - match goal with
    | |- context [moveContent ?f o ?l ?t s3] =>
        destruct (moveContent_in_progress f o l t s3 Hnested H3)
          as (s5 & -> & _ & Hl & Ht & Hw5 & Hh5 & Hbw & Hbh & Hsh & _)
    end.
    rewrite bind_Ok. eexists. split; [reflexivity|]. cbn.
    rewrite Hw5, Hh5, Hbw, Hbh, Hsh, Hw, Hh, Hcw, Hch in *.
    repeat split; try done; rewrite ?Hl, ?Ht; panel_arith Hmax.
  - match goal with
    | |- context [moveContent ?f o ?l ?t s3] =>
        destruct (moveContent_in_progress f o l t s3 Hnested H3)
          as (s4 & -> & H4 & Hl & _ & Hw4 & Hh4 & Hbw4 & Hbh4 & Hsh4 & _)
    end.
    rewrite bind_Ok.
    match goal with
    | |- context [moveContent ?f o ?l ?t s4] =>
        destruct (moveContent_in_progress f o l t s4 Hnested H4)
          as (s5 & -> & _ & Hl5 & Ht & Hw5 & Hh5 & Hbw & Hbh & Hsh & _)
    end.
    rewrite bind_Ok. eexists. split; [reflexivity|]. cbn.
    clear Hnested.
    cbn [contentWidth contentHeight set_inProgress set_backgroundShown] in Hl.
    rewrite Hw5, Hh5, Hbw, Hbh, Hsh, Hw4, Hh4, Hbw4, Hbh4, Hsh4, Hw, Hh, Hcw, Hch in *.
    repeat split; try done; rewrite ?Hl5, ?Hl, ?Ht; panel_arith Hmax.
  - match goal with
    | |- context [moveContent ?f o ?l ?t s3] =>
        destruct (moveContent_in_progress f o l t s3 Hnested H3)
          as (s4 & -> & H4 & Hl & _ & Hw4 & Hh4 & Hbw4 & Hbh4 & Hsh4 & _)
    end.
    rewrite bind_Ok.
    match goal with
    | |- context [moveContent ?f o ?l ?t s4] =>
        destruct (moveContent_in_progress f o l t s4 Hnested H4)
          as (s5 & -> & _ & Hl5 & Ht & Hw5 & Hh5 & Hbw & Hbh & Hsh & _)
    end.
    rewrite bind_Ok. eexists. split; [reflexivity|]. cbn.
    clear Hnested.
    cbn [contentWidth contentHeight set_inProgress set_backgroundShown] in Hl.
    rewrite Hw5, Hh5, Hbw, Hbh, Hsh, Hw4, Hh4, Hbw4, Hbh4, Hsh4, Hw, Hh, Hcw, Hch in *.
    repeat split; try done; rewrite ?Hl5, ?Hl, ?Ht; panel_arith Hmax.
Qed.

End PanelFacts.

(** ** ABSwitch *)

Section ABSwitchFacts.

Import ABSwitch.

(** With centerOnButton and lengths that are whole numbers (on which the
    code computes without rounding), the strut puts the middle of the
    whole node on the middle of the toggle switch when label A is at least
    as wide as label B.  When label A is the narrower one, the strut sticks
    out by the same amount on both sides, and the middle of the node stays
    where it was without the strut: to the right of the middle of the
    switch by half the difference of the widths. *)
Theorem abswitch_center_on_button (toggleSwitch : Span) (widthA widthB xSpacing : Q) :
  integralLengths toggleSwitch widthA widthB xSpacing ->
  (left toggleSwitch <= right toggleSwitch)%Q ->
  (0 <= widthA)%Q -> (0 <= widthB)%Q -> (0 <= xSpacing)%Q ->
  let l := layout toggleSwitch widthA widthB xSpacing true in
  (centerX (node l) ==
   centerX toggleSwitch +
   (if Qltb widthA widthB then (widthB - widthA) / 2 else 0))%Q.
Proof.
  destruct toggleSwitch as [tl tr].
  cbv beta iota zeta delta [layout node centerX union width Qltb left right].
  intros _ Hts HA HB Hxs.
  assert (Hwa : (tl - xSpacing - (tl - xSpacing - widthA) == widthA)%Q) by ring.
  assert (Hwb : (tr + xSpacing + widthB - (tr + xSpacing) == widthB)%Q) by ring.
  assert (Hlt : Qle_bool (tr + xSpacing + widthB - (tr + xSpacing))
                         (tl - xSpacing - (tl - xSpacing - widthA)) =
                Qle_bool widthB widthA)
    by (by rewrite Hwa, Hwb).
  rewrite Hlt. clear Hlt.
  assert (Hcase : (widthB <= widthA)%Q /\ Qle_bool widthB widthA = true \/
                  (widthA < widthB)%Q /\ Qle_bool widthB widthA = false).
  { destruct (Qle_bool widthB widthA) eqn:E.
    - left. split; [by apply Qle_bool_iff|done].
    - right. split; [|done]. apply Qnot_le_lt. intros H'.
      apply Qle_bool_iff in H'. congruence. }
  destruct Hcase as [[Hle ->]|[Hlt ->]]; cbv beta iota delta [negb].
  all: repeat match goal with
  | |- context [Qabs ?a] =>
      let H := fresh in
      assert (H : (0 <= a /\ Qabs a == a)%Q \/ (a <= 0 /\ Qabs a == - a)%Q)
        by (apply (Qabs_case a (fun y => (0 <= a /\ y == a)%Q \/ (a <= 0 /\ y == - a)%Q));
            intros; [left|right]; split; auto with qarith; reflexivity);
      generalize dependent (Qabs a); intros
  | |- context [Qmin ?a ?b] =>
      let H := fresh in
      pose proof (Q.min_spec a b) as H; generalize dependent (Qmin a b); intros
  | |- context [Qmax ?a ?b] =>
      let H := fresh in
      pose proof (Q.max_spec a b) as H; generalize dependent (Qmax a b); intros
  | _ : context [Qmin ?a ?b] |- _ =>
      let H := fresh in
      pose proof (Q.min_spec a b) as H; generalize dependent (Qmin a b); intros
  | _ : context [Qmax ?a ?b] |- _ =>
      let H := fresh in
      pose proof (Q.max_spec a b) as H; generalize dependent (Qmax a b); intros
  end.
  all: unfold Qdiv in *; change (/ 2)%Q with (1 # 2)%Q in *.
  all: repeat match goal with
       | H : _ \/ _ |- _ => destruct H as [[? ?]|[? ?]]
       end; lra.
Qed.

End ABSwitchFacts.

(** ** ComboBox: the list box and its click-to-dismiss listener *)

Section ComboBoxFacts.

Import ComboBoxListBox.

Lemma setVisible_dismissable (a : bool) (root : Display) (v : bool) (s : State) :
  dismissable s ->
  exists s', setVisible a root v s = Ok s' /\ dismissable s' /\
    listBoxVisible s' = v /\
    enabled s' = enabled s /\ displayOnly s' = displayOnly s /\
    pickable s' = pickable s.
Proof.
  destruct s as [vis d ls en dis pk]. unfold dismissable, setVisible. cbn.
  destruct d as [d|]; intros [-> ->]; destruct v; cbn.
  - eexists. by repeat split.
  - unfold visibleListener, hasInputListener. cbn.
    rewrite bool_decide_eq_true_2 by (by left). cbn.
    eexists. split; [reflexivity|]. unfold removeInputListener. cbn.
    rewrite Nat.eqb_refl. by repeat split.
  - unfold visibleListener, assert. cbn. rewrite andb_false_r. cbn.
    eexists. by repeat split.
  - eexists. by repeat split.
Qed.

Lemma step_dismissable (a : bool) (root : Display) (s : State) (op : Op) :
  dismissable s -> exists s', step a root s op = Ok s' /\ dismissable s'.
Proof.
  intros Hs. destruct op as [| | |inside|focus|b|b]; cbn.
  - destruct (setVisible_dismissable a root true s Hs) as (s' & ? & ? & _); eauto.
  - destruct (setVisible_dismissable a root false s Hs) as (s' & ? & ? & _); eauto.
  - destruct (setVisible_dismissable a root (negb (listBoxVisible s)) s Hs)
      as (s' & ? & ? & _); eauto.
  - destruct (hasInputListener root s && negb inside); [|eauto].
    destruct (setVisible_dismissable a root false s Hs) as (s' & ? & ? & _); eauto.
  - destruct focus as [[|]|]; eauto.
    destruct (setVisible_dismissable a root false s Hs) as (s' & ? & ? & _); eauto.
  - destruct (Bool.eqb (enabled s) b); eauto.
  - destruct (Bool.eqb (displayOnly s) b); eauto.
    set (s0 := mkState _ _ _ _ _ _).
    assert (H0 : dismissable s0) by (by destruct s as [vis [d|] ls en dis pk]).
    destruct (setVisible_dismissable a root false s0 H0) as (s' & -> & Hd & _).
    rewrite bind_Ok. eexists. split; [reflexivity|].
    by destruct s' as [vis' [d'|] ls' en' dis' pk'].
Qed.

(** Whatever happens to a combo box, on whatever displays, every step
    returns: the assertion 'unexpected display' never fails.  The combo box
    remembers a display, and its click-to-dismiss listener is registered,
    on that display only and once, exactly while the list box is visible;
    while it is hidden the listener is registered nowhere. *)
Theorem combo_box_dismiss_listener_follows_list_box
    (assertions : bool) (ops : list (Display * Op)) :
  exists s, run assertions new ops = Ok s /\ dismissable s.
Proof.
  assert (H0 : dismissable new) by (by split). revert H0.
  generalize new. induction ops as [|[root op] ops IH]; intros s Hs; cbn [run].
  - eauto.
  - destruct (step_dismissable assertions root s op Hs) as (s' & -> & Hs').
    rewrite bind_Ok. by apply IH.
Qed.

End ComboBoxFacts.

(** ** Slider: the enabled range *)

Section SliderFacts.

Import SliderRange.

Lemma Qle_bool_false (x y : Q) : Qle_bool x y = false -> (y < x)%Q.
Proof.
  intros H. apply Qnot_le_lt. intros H'. apply Qle_bool_iff in H'. congruence.
Qed.

(** When the enabled range of a slider changes, the value ends within the
    new enabled range, and is left alone if it already was; with assertions
    enabled, an enabled range that is not within the range of the slider
    fails the assertion instead. *)
Theorem slider_value_follows_enabled_range
    (assertions : bool) (range enabledRange : Range) (value : Q) :
  (min enabledRange <= max enabledRange)%Q ->
  ((min range <= min enabledRange)%Q /\ (max enabledRange <= max range)%Q ->
   exists v, enabledRangeObserver assertions range enabledRange value = Ok v /\
     (min enabledRange <= v)%Q /\ (v <= max enabledRange)%Q /\
     ((min enabledRange <= value)%Q -> (value <= max enabledRange)%Q -> v = value)) /\
  (assertions = true ->
   ~ ((min range <= min enabledRange)%Q /\ (max enabledRange <= max range)%Q) ->
   enabledRangeObserver assertions range enabledRange value =
     AssertionFailed "enabledRange is out of range").
Proof.
  intros Hrange. unfold enabledRangeObserver. split.
  - intros [Hlo Hhi]. apply Qle_bool_iff in Hlo, Hhi.
    rewrite (assert_passes _ _ _ (proj2 (andb_true_iff _ _) (conj Hlo Hhi))), bind_Ok.
    eexists. split; [reflexivity|]. unfold clamp.
    destruct (Qle_bool (min enabledRange) value) eqn:E1; cbn.
    + apply Qle_bool_iff in E1.
      destruct (Qle_bool value (max enabledRange)) eqn:E2; cbn.
      * apply Qle_bool_iff in E2. by repeat split.
      * apply Qle_bool_false in E2. repeat split; try lra; intros; lra.
    + apply Qle_bool_false in E1. repeat split; try lra; intros; lra.
  - intros -> Hout. rewrite assert_fails; [done|].
    apply andb_false_iff.
    destruct (Qle_bool (min range) (min enabledRange)) eqn:E1; [|by left].
    destruct (Qle_bool (max enabledRange) (max range)) eqn:E2; [|by right].
    exfalso. apply Hout. split; by apply Qle_bool_iff.
Qed.

End SliderFacts.

(** ** PushButtonModel: registrations and firing *)

Section PushButtonFacts.

Import PushButtonModel Histories.

Variable body : Listener -> list Cmd.

Lemma indexOfFrom_shift (l : Listener) (ls : list Listener) (i : Z) :
  0 <= i ->
  indexOfFrom l ls (i + 1) =
  if indexOfFrom l ls i =? -1 then -1 else indexOfFrom l ls i + 1.
Proof.
  revert i. induction ls as [|x xs IH]; intros i Hi; cbn; [done|].
  destruct (Nat.eqb x l).
  - destruct (Z.eqb_spec i (-1)); [lia|done].
  - apply IH. lia.
Qed.

Lemma indexOf_cons (l x : Listener) (xs : list Listener) :
  indexOf l (x :: xs) =
  if Nat.eqb x l then 0
  else if indexOf l xs =? -1 then -1 else indexOf l xs + 1.
Proof.
  unfold indexOf. cbn. destruct (Nat.eqb x l); [done|].
  by rewrite (indexOfFrom_shift l xs 0).
Qed.

Lemma indexOf_nonneg (l : Listener) (ls : list Listener) :
  indexOf l ls <> -1 -> 0 <= indexOf l ls.
Proof.
  induction ls as [|x xs IH]; [done|]. rewrite indexOf_cons.
  destruct (Nat.eqb x l); [lia|].
  destruct (Z.eqb_spec (indexOf l xs) (-1)); [done|]. intros _.
  specialize (IH n). lia.
Qed.

Lemma filter_absent (l : Listener) (ls : list Listener) :
  l ∉ ls -> filter (fun x => x <> l) ls = ls.
Proof.
  induction ls as [|x xs IH]; [done|]. intros Hnot.
  apply not_elem_of_cons in Hnot as [Hne Hnot].
  rewrite filter_cons_True by congruence. by rewrite IH.
Qed.

(** [splice] at the index found removes the first occurrence, which is the
    only one in a list without duplicates. *)
Lemma splice_indexOf (l : Listener) (ls : list Listener) :
  NoDup ls -> indexOf l ls <> -1 ->
  delete (Z.to_nat (indexOf l ls)) ls = filter (fun x => x <> l) ls.
Proof.
  induction ls as [|x xs IH]; [done|]. intros Hnd.
  apply NoDup_cons in Hnd as [Hx Hnd]. rewrite indexOf_cons.
  destruct (Nat.eqb_spec x l) as [->|Hne].
  - intros _. rewrite filter_cons_False by (intros H; by apply H).
    by rewrite filter_absent.
  - destruct (Z.eqb_spec (indexOf l xs) (-1)) as [|Hfound]; [done|]. intros _.
    pose proof (indexOf_nonneg l xs Hfound).
    rewrite filter_cons_True by done. rewrite <- IH by done.
    replace (Z.to_nat (indexOf l xs + 1)) with (S (Z.to_nat (indexOf l xs))) by lia.
    reflexivity.
Qed.

Lemma removeListener_filter (l : Listener) (m : Model) :
  NoDup (listeners m) ->
  listeners (removeListener l m) = filter (fun x => x <> l) (listeners m).
Proof.
  intros Hnd. unfold removeListener.
  destruct (Z.eqb_spec (indexOf l (listeners m)) (-1)) as [Habsent|Hfound]; cbn.
  - rewrite filter_absent; [done|]. intros Hin.
    by apply indexOf_present in Hin.
  - by apply splice_indexOf.
Qed.

(** After any history of a push button model, [removeListener] takes the
    listener out of the list and leaves the others in their order, so the
    next [fire] calls all the others, in order, and not the one removed. *)
Theorem removed_listener_is_not_called
    (o : Options) (history : list Op) (l : Listener) (s : FireSource) :
  let m := run body (new body o) history in
  listeners (removeListener l m) = filter (fun x => x <> l) (listeners m) /\
  callLog (fire body s (removeListener l m)) =
    callLog m ++ filter (fun x => x <> l) (listeners m).
Proof.
  intros m.
  assert (Hnd : NoDup (listeners m)) by (subst m; apply run_NoDup, new_NoDup).
  pose proof (removeListener_filter l m Hnd) as Hf. split; [done|].
  destruct (fire_frame body s (removeListener l m)) as (_&_&_&_&_&_&->).
  rewrite Hf. f_equal.
  unfold removeListener. by destruct (negb _).
Qed.

Lemma indexOf_snoc (l : Listener) (ls : list Listener) :
  l ∉ ls -> indexOf l (ls ++ [l]) = Z.of_nat (length ls).
Proof.
  induction ls as [|x xs IH]; intros Hnot.
  - unfold indexOf. cbn. by rewrite Nat.eqb_refl.
  - apply not_elem_of_cons in Hnot as [Hne Hnot]. cbn [app].
    rewrite indexOf_cons, IH by done.
    destruct (Nat.eqb_spec x l); [congruence|].
    destruct (Z.eqb_spec (Z.of_nat (length xs)) (-1)); [lia|]. cbn [length]. lia.
Qed.

Lemma delete_snoc (l : Listener) (ls : list Listener) :
  delete (length ls) (ls ++ [l]) = ls.
Proof. induction ls as [|x xs IH]; [done|]. cbn. f_equal. apply IH. Qed.

(** Registering a listener that was not registered and removing it again
    gives back the model as it was. *)
Theorem addListener_then_removeListener (l : Listener) (m : Model) :
  l ∉ listeners m -> removeListener l (addListener l m) = m.
Proof.
  intros Hnot. unfold addListener. rewrite indexOf_absent by done.
  change (-1 =? -1) with true. cbv iota.
  unfold removeListener. cbn [listeners set_listeners].
  rewrite indexOf_snoc by done.
  destruct (Z.eqb_spec (Z.of_nat (length (listeners m))) (-1)); [lia|].
  cbn [negb]. cbv iota. rewrite Nat2Z.id. unfold set_listeners. cbn.
  rewrite delete_snoc. by destruct m.
Qed.

End PushButtonFacts.

(** ** PushButtonModel: disabling the button from outside its listeners *)

Section DisableOutsideListeners.

Import PushButtonModel.

Variable code : Listener -> list PushButtonReentrancy.Call.
Variable fuel : nat.

(** On a model whose timer is stopped, a step that is neither a press nor
    a call of [fire] returns and calls no listener, whatever the listeners
    would do. *)
Lemma step_with_stopped_timer (m : Model) (t : CallbackTimer) (op : Op) :
  timer m = Some t -> isRunning t = false ->
  PushButtonReentrancy.neitherPressNorFire op = true ->
  exists m', PushButtonReentrancy.step code fuel m op = Ok m' /\
    timer m' = Some t /\ fireLog m' = fireLog m /\ callLog m' = callLog m.
Proof.
  intros Ht Hrun Hop.
  destruct m as [o ov dw en ls tm fl cl]. cbn in Ht. subst tm.
  destruct op as [b|[|]|b|l|l| |]; try discriminate Hop;
    cbn [PushButtonReentrancy.step PushButtonReentrancy.call].
  - exists (setOver b (mkModel o ov dw en ls (Some t) fl cl)). split; [done|].
    unfold setOver. by destruct (Bool.eqb _ _).
  - cbn. destruct dw; cbn; [|by eexists].
    unfold PushButtonReentrancy.downListener, PushButtonReentrancy.timer_stop.
    cbn. rewrite Hrun. by eexists.
  - cbn. destruct (Bool.eqb en b); [by eexists|].
    unfold PushButtonReentrancy.enabledListener, PushButtonReentrancy.timer_stop.
    cbn. destruct (negb b); cbn; rewrite ?Hrun; by eexists.
  - eexists. split; [reflexivity|]. unfold addListener.
    by destruct (_ =? _).
  - eexists. split; [reflexivity|]. unfold removeListener.
    by destruct (negb _).
  - unfold PushButtonReentrancy.timer_tick. cbn. rewrite Hrun. by eexists.
Qed.

Lemma run_with_stopped_timer (ops : list Op) (m : Model) (t : CallbackTimer) :
  timer m = Some t -> isRunning t = false ->
  forallb PushButtonReentrancy.neitherPressNorFire ops = true ->
  exists m', PushButtonReentrancy.run code fuel m ops = Ok m' /\
    timer m' = Some t /\ fireLog m' = fireLog m /\ callLog m' = callLog m.
Proof.
  unfold PushButtonReentrancy.run. revert m.
  induction ops as [|op ops IH]; intros m Ht Hrun Hops; cbn [foldM].
  - by exists m.
  - cbn in Hops. apply andb_prop in Hops as [Hop Hops].
    destruct (step_with_stopped_timer m t op Ht Hrun Hop) as (m1 & -> & Ht1 & Hf1 & Hc1).
    rewrite bind_Ok. destruct (IH m1 Ht1 Hrun Hops) as (m2 & -> & Ht2 & Hf2 & Hc2).
    exists m2. repeat split; congruence.
Qed.

(** Whatever the listeners of a fire-on-hold button do when they are
    called: a [setEnabled( false )] made from outside the listeners, on an
    enabled button in any state (held down or not, timer running or not),
    returns, stops the timer and calls [fire] not once; and then, until the
    next press or call of the public [fire], whatever else happens (timer
    callbacks due, release, re-enabling, pointer moves, registrations)
    returns, calls no listener, and leaves the timer stopped. *)
Theorem disable_from_outside_cancels_hold_fire
    (m : Model) (later : list Op) :
  enabled m = true -> is_Some (timer m) ->
  forallb PushButtonReentrancy.neitherPressNorFire later = true ->
  exists disabled final,
    PushButtonReentrancy.step code fuel m (SetEnabled false) = Ok disabled /\
    enabled disabled = false /\ timerRunning disabled = false /\
    fireLog disabled = fireLog m /\ callLog disabled = callLog m /\
    PushButtonReentrancy.run code fuel disabled later = Ok final /\
    timerRunning final = false /\
    fireLog final = fireLog m /\ callLog final = callLog m.
Proof.
  intros Hen [t Ht] Hlater.
  assert (Hdis : exists disabled t',
    PushButtonReentrancy.step code fuel m (SetEnabled false) = Ok disabled /\
    enabled disabled = false /\ timer disabled = Some t' /\ isRunning t' = false /\
    fireLog disabled = fireLog m /\ callLog disabled = callLog m).
  { destruct m as [o ov dw en ls tm fl cl]. cbn in Hen, Ht. subst en tm.
    cbn [PushButtonReentrancy.step PushButtonReentrancy.call]. cbn.
    unfold PushButtonReentrancy.enabledListener, PushButtonReentrancy.timer_stop.
    cbn. destruct (isRunning t) eqn:Hrun; cbn.
    - eexists _, _. by repeat split.
    - eexists _, _. by repeat split. }
  destruct Hdis as (disabled & t' & Hstep & Hen' & Ht' & Hrun' & Hf & Hc).
  destruct (run_with_stopped_timer later disabled t' Ht' Hrun' Hlater)
    as (final & Hrun & Htf & Hff & Hcf).
  exists disabled, final. unfold timerRunning. rewrite Ht', Htf, Hrun'.
  repeat split; congruence.
Qed.

End DisableOutsideListeners.

(** ** StickyToggleButtonModel: writes to the bound property, and the count
    of toggles *)

Ltac sticky_proj :=
  cbn [StickyToggleButtonModel.value StickyToggleButtonModel.valueUp
       StickyToggleButtonModel.valueDown StickyToggleButtonModel.toggles
       StickyToggleButtonModel.down StickyToggleButtonModel.enabled
       StickyToggleButtonModel.over StickyToggleButtonModel.pressedWhileDown
       StickyToggleButtonModel.set_down StickyToggleButtonModel.set_value
       StickyToggleButtonModel.set_pressedWhileDown
       StickyToggleButtonModel.count_toggle andb negb Bool.eqb] in *.

Section StickyFacts.

Import StickyToggleButtonModel Histories.

Context {V : Type} `{!EqDecision V}.
Variable assertions : bool.

Lemma even_S (n : nat) : Nat.even (S n) = negb (Nat.even n).
Proof. by rewrite Nat.even_succ, <- Nat.negb_even. Qed.

(** When another client of the bound property writes a new value [x], the
    write returns, the model is down exactly if [x] is [valueDown], and,
    the two values of the button being different, nothing is toggled: the
    value stays [x] and [toggledEmitter] does not emit. *)
Theorem sticky_external_write_sets_down
    (k : nat) (m : Model V) (x : V) :
  value m <> x ->
  exists m',
    step assertions (S (S k)) m (SetValue x) = Ok m' /\
    value m' = x /\
    down m' = bool_decide (x = valueDown m) /\
    (valueUp m <> valueDown m -> toggles m' = toggles m).
Proof.
  intros Hne. rewrite step_closed.
  rewrite bool_decide_eq_false_2 by done.
  eexists. split; [reflexivity|].
  destruct m as [up dn v ov dw en pwd n]. unfold setDown. cbn in *.
  destruct dw, en, ov, pwd; cbn; sticky_cases; try done.
Qed.

(** The public [toggle] on a model whose value is neither [valueUp] nor
    [valueDown]: with assertions enabled the call fails the assertion of
    [toggleListener]; without them it returns, [toggledEmitter] has
    emitted, and the value is [valueUp]. *)
Theorem sticky_toggle_of_unrecognized_value
    (k : nat) (m : Model V) :
  value m <> valueUp m -> value m <> valueDown m ->
  (assertions = true ->
   isAssertionFailed (step assertions (S (S k)) m Toggle) = true) /\
  (assertions = false ->
   exists m', step assertions (S (S k)) m Toggle = Ok m' /\
              value m' = valueUp m /\ toggles m' <> toggles m).
Proof.
  intros Hup Hdn. rewrite step_closed. cbv zeta. unfold assert.
  rewrite !(bool_decide_eq_false_2 (value m = valueUp m)) by done.
  rewrite ?(bool_decide_eq_false_2 (value m = valueDown m)) by done.
  split; intros ->; cbn [andb orb negb]; cbv iota; [done|]. rewrite bind_Ok.
  eexists. split; [reflexivity|].
  destruct m as [up dn v ov dw en pwd n]. unfold setDown. cbn in *.
  destruct dw, en, ov, pwd; cbn; sticky_cases; try done; (split; [done|lia]).
Qed.

Lemma setDown_values (d : bool) (m : Model V) :
  valueUp (setDown d m) = valueUp m /\ valueDown (setDown d m) = valueDown m.
Proof.
  destruct m as [up dn v ov dw en pwd n]. unfold setDown. cbn.
  destruct d, dw, en, ov, pwd; cbn; sticky_cases; done.
Qed.

Lemma setDown_countsToggles (d : bool) (m : Model V) :
  countsToggles m -> countsToggles (setDown d m).
Proof.
  destruct m as [up dn v ov dw en pwd n]. unfold countsToggles, setDown.
  cbn [value valueUp valueDown toggles down enabled over pressedWhileDown
       set_down set_value set_pressedWhileDown count_toggle].
  intros ->. set (e := Nat.even n) in *.
  destruct d, dw, en, ov, pwd; cbn [Bool.eqb andb negb];
    repeat (first [ case_bool_decide | progress sticky_proj ]);
    rewrite ?even_S; fold e; clearbody e; destruct e; cbn [negb] in *;
    congruence.
Qed.

(** A step other than a write by another client keeps the parity invariant,
    and does not fail. *)
Lemma step_countsToggles (k : nat) (m : Model V) (op : Op V) :
  isInternal op = true -> countsToggles m ->
  exists m', step assertions (S (S k)) m op = Ok m' /\ countsToggles m' /\
             valueUp m' = valueUp m /\ valueDown m' = valueDown m.
Proof.
  intros Hop Hinv. rewrite step_closed. destruct op as [b|d|b|x|]; try done.
  - eexists. split; [reflexivity|]. unfold setOver.
    by destruct (Bool.eqb _ _).
  - eexists. split; [reflexivity|].
    split; [by apply setDown_countsToggles|apply setDown_values].
  - eexists. split; [reflexivity|]. unfold setEnabled, enabledPropertyOnListener.
    destruct (Bool.eqb _ _); [done|]. by destruct b.
  - cbv zeta. unfold assert.
    assert (Hrec : bool_decide (value m = valueUp m) ||
                   bool_decide (value m = valueDown m) = true).
    { unfold countsToggles in Hinv. rewrite Hinv.
      destruct (Nat.even _).
      - by rewrite bool_decide_eq_true_2.
      - rewrite (bool_decide_eq_true_2 (valueDown m = valueDown m)) by done.
        apply orb_true_r. }
    rewrite Hrec, andb_false_r, bind_Ok.
    eexists. split; [reflexivity|].
    destruct m as [up dn v ov dw en pwd n]. unfold countsToggles, setDown in *.
    cbn [value valueUp valueDown toggles down enabled over pressedWhileDown
         set_down set_value set_pressedWhileDown count_toggle] in *.
    subst v. clear Hrec. set (e := Nat.even n) in *.
    destruct dw, en, ov, pwd; cbn [Bool.eqb andb negb];
      repeat (first [ case_bool_decide | progress sticky_proj ]);
      rewrite ?even_S; fold e; clearbody e; destruct e; cbn [negb] in *;
      repeat split; congruence.
Qed.

Lemma run_countsToggles (k : nat) (ops : list (Op V)) (m : Model V) :
  forallb isInternal ops = true -> countsToggles m ->
  exists m', run assertions (S (S k)) m ops = Ok m' /\ countsToggles m' /\
             valueUp m' = valueUp m /\ valueDown m' = valueDown m.
Proof.
  revert m. induction ops as [|op ops IH]; intros m Hops Hinv; cbn [run].
  - by exists m.
  - cbn in Hops. apply andb_prop in Hops as [Hop Hops].
    destruct (step_countsToggles k m op Hop Hinv) as (m1 & -> & Hinv1 & Hu & Hd).
    rewrite bind_Ok.
    destruct (IH m1 Hops Hinv1) as (m' & -> & Hinv' & Hu' & Hd').
    exists m'. repeat split; [done|congruence..].
Qed.

(** A sticky toggle model built on a property that holds [valueUp], and
    then driven by its own operations only (pointer, enabling, the public
    [toggle]; no write by another client), never fails, with or without
    assertions, and its value is told by the number of emissions of
    [toggledEmitter]: [valueUp] after an even number, [valueDown] after an
    odd one. *)
Theorem sticky_value_is_the_parity_of_toggles
    (k : nat) (up dn : V) (history : list (Op V)) :
  forallb isInternal history = true ->
  exists m,
    (new assertions (S (S k)) up dn up ≫= λ m0, run assertions (S (S k)) m0 history)
      = Ok m /\
    value m = if Nat.even (toggles m) then up else dn.
Proof.
  intros Hops. rewrite new_closed, bind_Ok.
  set (m0 := mkModel up dn up false (bool_decide (up = dn)) true true 0).
  assert (Hinv : countsToggles m0) by reflexivity.
  destruct (run_countsToggles k history m0 Hops Hinv) as (m & Hrun & Hm & Hu & Hd).
  exists m. split; [done|]. unfold countsToggles in Hm. by rewrite Hm, Hu, Hd.
Qed.

End StickyFacts.

(** ** PushButtonModel: one gesture on a fire-on-hold button *)

Section PushButtonHold.

Import PushButtonModel Histories.

Variable body : Listener -> list Cmd.

(** A press of an enabled button that has a stopped timer starts the timer
    and fires if [fireOnDown] is set. *)
Lemma press_starts_timer (m : Model) (t : CallbackTimer) :
  enabled m = true -> down m = false ->
  timer m = Some t -> isRunning t = false ->
  let m1 := step body m (SetDown true) in
  options m1 = options m /\ over m1 = over m /\ down m1 = true /\
  enabled m1 = true /\
  (exists t1, timer m1 = Some t1 /\ isRunning t1 = true /\ fired t1 = false) /\
  fireLog m1 = fireLog m ++ (if fireOnDown (options m) then [FromModel] else []).
Proof.
  intros Hen Hdw Ht Hrun.
  destruct m as [[fd li fh de it] ov dw en ls tm fl cl]. cbn in *. subst.
  destruct fd; crush_step; rewrite ?app_nil_r;
    repeat split; try done; try congruence; by eexists.
Qed.

(** A callback of a running timer fires, and the timer keeps running. *)
Lemma tick_fires (m : Model) (t : CallbackTimer) :
  timer m = Some t -> isRunning t = true ->
  let m1 := step body m Tick in
  options m1 = options m /\ over m1 = over m /\ down m1 = down m /\
  enabled m1 = enabled m /\
  (exists t1, timer m1 = Some t1 /\ isRunning t1 = true /\ fired t1 = true) /\
  fireLog m1 = fireLog m ++ [FromTimer].
Proof.
  intros Ht Hrun.
  destruct m as [o ov dw en ls tm fl cl]. cbn in *. subst.
  crush_step; repeat split; try done; try congruence; by eexists.
Qed.

Lemma ticks_fire (n : nat) (m : Model) (t : CallbackTimer) :
  timer m = Some t -> isRunning t = true ->
  let m1 := run body m (replicate n Tick) in
  options m1 = options m /\ over m1 = over m /\ down m1 = down m /\
  enabled m1 = enabled m /\
  (exists t1, timer m1 = Some t1 /\ isRunning t1 = true /\
              fired t1 = if n is O then fired t else true) /\
  fireLog m1 = fireLog m ++ replicate n FromTimer.
Proof.
  revert m t. induction n as [|n IH]; intros m t Ht Hrun.
  - cbn. rewrite app_nil_r. repeat split; try done. by exists t.
  - cbv zeta. change (run body m (replicate (S n) Tick))
      with (run body (step body m Tick) (replicate n Tick)).
    destruct (tick_fires m t Ht Hrun) as (Ho & Hov & Hdw & Hen & (t1 & Ht1 & Hrun1 & Hf1) & Hlog).
    destruct (IH (step body m Tick) t1 Ht1 Hrun1)
      as (Ho' & Hov' & Hdw' & Hen' & (t2 & Ht2 & Hrun2 & Hf2) & Hlog').
    repeat split; try congruence.
    + exists t2. repeat split; try done. rewrite Hf2, Hf1. by destruct n.
    + rewrite Hlog', Hlog, <- app_assoc. done.
Qed.

(** The release of a held button stops the timer, which fires if the button
    does not fire on the way down and the timer has not fired yet. *)
Lemma release_stops_timer (m : Model) (t : CallbackTimer) :
  enabled m = true -> over m = true -> down m = true ->
  timer m = Some t -> isRunning t = true ->
  fireLog (step body m (SetDown false)) =
  fireLog m ++
    (if negb (fireOnDown (options m)) && negb (fired t) then [FromTimer] else []).
Proof.
  intros Hen Hov Hdw Ht Hrun.
  destruct m as [[fd li fh de it] ov dw en ls tm fl cl]. cbn in *. subst.
  destruct t as [d i ph [|]], fd; crush_step; rewrite ?app_nil_r; try done;
    congruence.
Qed.

(** One gesture on an enabled fire-on-hold button under the pointer: a
    press, [n] timer callbacks while the button is held, and the release.
    A button that fires on the way down fires on the press and once per
    callback; one that does not fires once per callback, and once on the
    release if there was no callback. *)
Theorem hold_fires_once_per_callback (m : Model) (t : CallbackTimer) (n : nat) :
  enabled m = true -> over m = true -> down m = false ->
  timer m = Some t -> isRunning t = false ->
  fireLog (run body m (hold n ++ [SetDown false])) =
  fireLog m ++
    (if fireOnDown (options m) then FromModel :: replicate n FromTimer
     else replicate (Nat.max 1 n) FromTimer).
Proof.
  intros Hen Hov Hdw Ht Hrun. unfold hold, run.
  rewrite fold_left_app. cbn [fold_left app].
  fold (run body (step body m (SetDown true)) (replicate n Tick)).
  destruct (press_starts_timer m t Hen Hdw Ht Hrun)
    as (Ho1 & Hov1 & Hdw1 & Hen1 & (t1 & Ht1 & Hrun1 & Hf1) & Hlog1).
  destruct (ticks_fire n _ t1 Ht1 Hrun1)
    as (Ho2 & Hov2 & Hdw2 & Hen2 & (t2 & Ht2 & Hrun2 & Hf2) & Hlog2).
  rewrite (release_stops_timer _ t2) by congruence.
  rewrite Hlog2, Hlog1, Ho2, Ho1, Hf2, Hf1, <- !app_assoc. f_equal.
  destruct (fireOnDown (options m)), n as [|n]; cbn; by rewrite ?app_nil_r.
Qed.

End PushButtonHold.

(** ** RectangularButton: the strokes over a sequence of updates *)

Section AppearanceFacts.

Import RectangularButton AppearanceHistories.

Context {Value : Type} `{!EqDecision Value}.
Variables IDLE OVER PRESSED DISABLED DISABLED_PRESSED : Value.
Variable toString : Value -> string.

Local Abbreviation members' := (members IDLE OVER PRESSED DISABLED DISABLED_PRESSED).
Local Abbreviation update :=
  (updateAppearance IDLE OVER PRESSED DISABLED DISABLED_PRESSED toString).
Local Abbreviation updates' :=
  (updates IDLE OVER PRESSED DISABLED DISABLED_PRESSED toString).

Lemma updates_app (s : Strategy) (o : Options) (xs ys : list Value) (p : Painted) :
  updates' s o (xs ++ ys) p = (updates' s o xs p ≫= updates' s o ys).
Proof.
  revert p. induction xs as [|x xs IH]; intros p; cbn [updates app]; [done|].
  destruct (update s o x p); try done. rewrite !bind_Ok. apply IH.
Qed.

(** An update to a member of the enumeration returns; under the 3D
    strategy it leaves the disabled stroke on the button path if it is
    there. *)
Lemma update_member (s : Strategy) (o : Options) (v : Value) (p : Painted) :
  v ∈ members' ->
  exists p', update s o v p = Ok p' /\
    (nodeStroke (button p) = disabledStroke o ->
     nodeStroke (button (match s with ThreeD => p' | Flat => p end)) =
     disabledStroke o).
Proof.
  unfold members. rewrite !elem_of_cons, elem_of_nil. intros Hv.
  destruct s; unfold updateAppearance, updateAppearance3D, updateAppearanceFlat;
    repeat case_bool_decide; try (eexists; split; [reflexivity|done]);
    exfalso; tauto.
Qed.

Lemma updates_members (s : Strategy) (o : Options) (vs : list Value) (p : Painted) :
  Forall (fun v => v ∈ members') vs ->
  exists p', updates' s o vs p = Ok p' /\
    (nodeStroke (button p) = disabledStroke o ->
     nodeStroke (button (match s with ThreeD => p' | Flat => p end)) =
     disabledStroke o).
Proof.
  revert p. induction vs as [|v vs IH]; intros p Hvs; cbn [updates].
  - exists p. split; [done|]. by destruct s.
  - apply Forall_cons in Hvs as [Hv Hvs].
    destruct (update_member s o v p Hv) as (p1 & -> & H1). rewrite bind_Ok.
    destruct (IH p1 Hvs) as (p2 & -> & H2).
    exists p2. split; [done|]. destruct s; [|done]. intros Hp. by apply H2, H1.
Qed.

Lemma update_disabled (o : Options) (d : Value) (p : Painted) :
  NoDup members' -> d ∈ disabledStates DISABLED DISABLED_PRESSED ->
  exists p', update ThreeD o d p = Ok p' /\
             nodeStroke (button p') = disabledStroke o.
Proof.
  unfold members, disabledStates. rewrite !NoDup_cons, !not_elem_of_cons.
  intros Hnd Hd.
  assert (Hd' : d = DISABLED \/ d = DISABLED_PRESSED)
    by (revert Hd; rewrite !elem_of_cons, elem_of_nil; tauto).
  clear Hd. unfold updateAppearance, updateAppearance3D.
  repeat case_bool_decide; try (eexists; split; [reflexivity|done]);
    exfalso; intuition congruence.
Qed.

Lemma update_enabled (s : Strategy) (o : Options) (e : Value) (p : Painted) :
  e ∈ enabledStates IDLE OVER PRESSED ->
  exists p', update s o e p = Ok p' /\
             nodeStroke (button p') =
               match s with ThreeD => nodeStroke (button p) | Flat => enabledStroke o end /\
             nodeStroke (overlay p') =
               match s with ThreeD => enabledStroke o | Flat => nodeStroke (overlay p) end.
Proof.
  unfold enabledStates. rewrite !elem_of_cons, elem_of_nil. intros He.
  destruct s; unfold updateAppearance, updateAppearance3D, updateAppearanceFlat;
    repeat case_bool_decide; try (eexists; split; [reflexivity|done]);
    exfalso; tauto.
Qed.

(** The interaction state of a button goes through any members of the
    enumeration, among them a disabled one, and ends at an enabled one.
    Every update returns.  Under the 3D strategy the button path then still
    has the disabled stroke, which only the disabled cases assign, below
    the enabled stroke of the overlay; under the flat strategy the button
    path has the enabled stroke again. *)
Theorem threeD_button_path_keeps_disabled_stroke
    (o : Options) (before after : list Value) (d e : Value) (p : Painted) :
  NoDup members' ->
  Forall (fun v => v ∈ members') (before ++ after) ->
  d ∈ disabledStates DISABLED DISABLED_PRESSED ->
  e ∈ enabledStates IDLE OVER PRESSED ->
  (exists p3, updates' ThreeD o (before ++ d :: after ++ [e]) p = Ok p3 /\
              nodeStroke (button p3) = disabledStroke o /\
              nodeStroke (overlay p3) = enabledStroke o) /\
  (exists pF, updates' Flat o (before ++ d :: after ++ [e]) p = Ok pF /\
              nodeStroke (button pF) = enabledStroke o).
Proof.
  intros Hnd Hvs Hd He. apply Forall_app in Hvs as [Hb Ha].
  assert (Hdm : d ∈ members').
  { revert Hd. unfold disabledStates, members.
    rewrite !elem_of_cons, elem_of_nil. tauto. }
  split.
  - rewrite updates_app.
    destruct (updates_members ThreeD o before p Hb) as (p1 & -> & _).
    rewrite bind_Ok. cbn [updates].
    destruct (update_disabled o d p1 Hnd Hd) as (p2 & -> & H2). rewrite bind_Ok.
    rewrite updates_app.
    destruct (updates_members ThreeD o after p2 Ha) as (p3 & -> & H3).
    rewrite bind_Ok. cbn [updates].
    destruct (update_enabled ThreeD o e p3 He) as (p4 & -> & H4 & H4').
    rewrite bind_Ok. exists p4. split; [done|]. split; [|done].
    rewrite H4. by apply H3.
  - rewrite updates_app.
    destruct (updates_members Flat o before p Hb) as (p1 & -> & _).
    rewrite bind_Ok. cbn [updates].
    destruct (update_member Flat o d p1 Hdm) as (p2 & -> & _). rewrite bind_Ok.
    rewrite updates_app.
    destruct (updates_members Flat o after p2 Ha) as (p3 & -> & _).
    rewrite bind_Ok. cbn [updates].
    destruct (update_enabled Flat o e p3 He) as (p4 & -> & H4 & _).
    rewrite bind_Ok. by exists p4.
Qed.

End AppearanceFacts.

(** ** Instances of the further properties *)

Section FurtherWitnesses.

Import Samples.

Lemma listener_ignores_other_pointers_witness :
  ButtonListener.handle
    (ButtonListener.mkState (Some 1%nat) (Some 1%nat) true true)
    (ButtonListener.Up 2%nat) =
  ButtonListener.mkState (Some 1%nat) (Some 1%nat) true true.
Proof.
  apply (listener_ignores_other_pointers
           (ButtonListener.mkState (Some 1%nat) (Some 1%nat) true true) 1%nat
           (ButtonListener.Up 2%nat)); [reflexivity|reflexivity|].
  simpl. lia.
Defined.

Lemma toggle_click_flips_once_witness :
  let m' := ToggleButtonModel.handleUp ToggleButtonModel.defaultOptions 1%nat
              (ToggleButtonModel.handleDown ToggleButtonModel.defaultOptions 1%nat
                 toggleOver) in
  ToggleButtonModel.buttonStateUp m' = false /\
  ToggleButtonModel.downPointer m' = None /\
  ToggleButtonModel.interactionState m' =
    (if Bool.eqb (ToggleButtonModel.buttonStateUp m')
                 (ToggleButtonModel.toggleOnDown ToggleButtonModel.defaultOptions)
     then "pressed" else "over").
Proof.
  apply (toggle_click_flips_once ToggleButtonModel.defaultOptions 1%nat toggleOver);
    reflexivity.
Defined.

Lemma toggle_disabled_keeps_value_witness :
  let m := ToggleButtonModel.mkModel None (Some 1%nat) false "disabled" true in
  ToggleButtonModel.buttonStateUp
    (ToggleButtonModel.handleDown ToggleButtonModel.defaultOptions 1%nat m) = true /\
  ToggleButtonModel.downPointer
    (ToggleButtonModel.handleDown ToggleButtonModel.defaultOptions 1%nat m) =
    Some 1%nat.
Proof.
  pose proof (toggle_disabled_keeps_value ToggleButtonModel.defaultOptions 1%nat
                (ToggleButtonModel.mkModel None (Some 1%nat) false "disabled" true)
                eq_refl) as (Hvalue & _ & _ & _ & Hdown & _).
  split; [exact Hvalue|]. apply Hdown. reflexivity.
Defined.

Lemma toggle_release_by_other_pointer_witness :
  let m := ToggleButtonModel.mkModel (Some 1%nat) (Some 1%nat) true "pressed" true in
  ToggleButtonModel.buttonStateUp
    (ToggleButtonModel.handleUp ToggleButtonModel.defaultOptions 2%nat m) = true /\
  ToggleButtonModel.downPointer
    (ToggleButtonModel.handleUp ToggleButtonModel.defaultOptions 2%nat m) =
    Some 1%nat /\
  ToggleButtonModel.interactionState
    (ToggleButtonModel.handleUp ToggleButtonModel.defaultOptions 2%nat m) = "pressed".
Proof.
  pose proof (toggle_release_by_other_pointer ToggleButtonModel.defaultOptions
                1%nat 2%nat
                (ToggleButtonModel.mkModel (Some 1%nat) (Some 1%nat) true "pressed" true)
                eq_refl ltac:(lia)) as (Hvalue & Hdown & Hstate).
  split; [exact Hvalue|]. split; [exact Hdown|]. apply Hstate. reflexivity.
Defined.

Lemma radio_buttons_show_the_property_witness :
  let g := AquaRadioButton.run (AquaRadioButton.new "a")
             [AquaRadioButton.AddButton "a"; AquaRadioButton.AddButton "b";
              AquaRadioButton.Fire 1%nat; AquaRadioButton.AddButton "b"] in
  AquaRadioButton.buttons g !! 1%nat =
    Some (AquaRadioButton.mkButton "b" true false true) /\
  AquaRadioButton.buttons g !! 2%nat =
    Some (AquaRadioButton.mkButton "b" true false true) /\
  AquaRadioButton.value (AquaRadioButton.mkButton "b" true false true) =
    AquaRadioButton.value (AquaRadioButton.mkButton "b" true false true).
Proof.
  split; [reflexivity|]. split; [reflexivity|].
  apply (proj2 (radio_buttons_show_the_property "a"
           [AquaRadioButton.AddButton "a"; AquaRadioButton.AddButton "b";
            AquaRadioButton.Fire 1%nat; AquaRadioButton.AddButton "b"])).
  - apply (list_elem_of_lookup_2 _ 1%nat). reflexivity.
  - apply (list_elem_of_lookup_2 _ 2%nat). reflexivity.
  - reflexivity.
  - reflexivity.
Defined.

Lemma radio_fire_selects_witness :
  let ops := [AquaRadioButton.AddButton "a"; AquaRadioButton.AddButton "b"] in
  let g' := AquaRadioButton.fire 1%nat
              (AquaRadioButton.run (AquaRadioButton.new "a") ops) in
  AquaRadioButton.propertyValue g' = "b" /\
  exists b', AquaRadioButton.buttons g' !! 1%nat = Some b' /\
             AquaRadioButton.value b' = "b" /\
             AquaRadioButton.selectedVisible b' = true /\
             AquaRadioButton.deselectedVisible b' = false.
Proof.
  apply (radio_fire_selects "a"
           [AquaRadioButton.AddButton "a"; AquaRadioButton.AddButton "b"] 1%nat
           (AquaRadioButton.mkButton "b" false true false)).
  reflexivity.
Defined.

Lemma dialog_active_element_is_kept_witness :
  let shown := Dialog.run (Dialog.new (Dialog.mkOptions false false None true))
                 [Dialog.Show (Some 4%nat)] in
  Dialog.activeElement shown = Some 4%nat /\
  Dialog.activeElement
    (Dialog.run shown [Dialog.Escape; Dialog.Show (Some 9%nat); Dialog.Hide]) =
    Some 4%nat.
Proof.
  split; [reflexivity|].
  apply (dialog_active_element_is_kept
           (Dialog.run (Dialog.new (Dialog.mkOptions false false None true))
              [Dialog.Show (Some 4%nat)])
           [Dialog.Escape; Dialog.Show (Some 9%nat); Dialog.Hide] 4%nat).
  reflexivity.
Defined.

Lemma applyDoubleMargin_stays_positive_witness :
  (0 < Dialog.applyDoubleMargin 1024 40)%Q /\
  ((0 <= 40)%Q -> (Dialog.applyDoubleMargin 1024 40 <= 1024)%Q).
Proof.
  apply (applyDoubleMargin_stays_positive 1024 40). reflexivity.
Defined.

Lemma panel_content_keeps_its_margins_witness :
  let s := Panel.mkState 0 0 100 40 true false 1 1 false in
  exists s', Panel.updateBackground 2 Panel.DEFAULT_OPTIONS s = Ok s' /\
    Panel.backgroundUpdateInProgress s' = false /\
    Panel.backgroundShown s' = true /\
    Panel.backgroundWidth s' =
      Qmax (Panel.minWidth Panel.DEFAULT_OPTIONS)
           (Panel.contentWidth s + 2 * Panel.xMargin Panel.DEFAULT_OPTIONS) /\
    Panel.backgroundHeight s' =
      (Panel.contentHeight s + 2 * Panel.yMargin Panel.DEFAULT_OPTIONS)%Q /\
    Panel.contentWidth s' = Panel.contentWidth s /\
    Panel.contentHeight s' = Panel.contentHeight s /\
    (Panel.xMargin Panel.DEFAULT_OPTIONS <= Panel.contentLeft s')%Q /\
    (Panel.contentLeft s' + Panel.contentWidth s' <=
     Panel.backgroundWidth s' - Panel.xMargin Panel.DEFAULT_OPTIONS)%Q /\
    (Panel.contentTop s' == Panel.yMargin Panel.DEFAULT_OPTIONS)%Q /\
    ((Panel.minWidth Panel.DEFAULT_OPTIONS <=
      Panel.contentWidth s + 2 * Panel.xMargin Panel.DEFAULT_OPTIONS)%Q ->
     (Panel.contentLeft s' == Panel.xMargin Panel.DEFAULT_OPTIONS)%Q).
Proof.
  apply (panel_content_keeps_its_margins 0 Panel.DEFAULT_OPTIONS
           (Panel.mkState 0 0 100 40 true false 1 1 false)); [|reflexivity..].
  unfold Panel.integralLengths. simpl.
  repeat split;
    [exists 5|exists 5|exists 0|exists 0|exists 0|exists 100|exists 40];
    (split; [lia|reflexivity]).
Defined.

Lemma abswitch_center_on_button_witness :
  let l := ABSwitch.layout (ABSwitch.mkSpan 0 60) 20 50 8 true in
  (ABSwitch.centerX (ABSwitch.node l) ==
   ABSwitch.centerX (ABSwitch.mkSpan 0 60) +
   (if ABSwitch.Qltb 20 50 then (50 - 20) / 2 else 0))%Q.
Proof.
  apply (abswitch_center_on_button (ABSwitch.mkSpan 0 60) 20 50 8);
    [|unfold Qle; simpl; lia..].
  unfold ABSwitch.integralLengths. simpl.
  repeat split; [exists 0|exists 60|exists 20|exists 50|exists 8];
    (split; [lia|reflexivity]).
Defined.

Lemma slider_value_follows_enabled_range_witness :
  exists v,
    SliderRange.enabledRangeObserver true (SliderRange.mkRange 0 10)
      (SliderRange.mkRange 2 5) 7 = Ok v /\
    (2 <= v)%Q /\ (v <= 5)%Q /\
    ((2 <= 7)%Q -> (7 <= 5)%Q -> v = 7%Q).
Proof.
  apply (slider_value_follows_enabled_range true (SliderRange.mkRange 0 10)
           (SliderRange.mkRange 2 5) 7).
  - unfold Qle. simpl. lia.
  - split; unfold Qle; simpl; lia.
Defined.

Lemma addListener_then_removeListener_witness :
  PushButtonModel.removeListener 3%nat
    (PushButtonModel.addListener 3%nat twoListeners) = twoListeners.
Proof.
  apply (addListener_then_removeListener 3%nat twoListeners).
  vm_compute. intros Hin.
  repeat (apply elem_of_cons in Hin as [?|Hin]; [done|]).
  by apply elem_of_nil in Hin.
Defined.

Lemma disable_from_outside_cancels_hold_fire_witness :
  let held := PushButtonModel.mkModel holdOptions true true true [1%nat]
                (Some (PushButtonModel.mkTimer 400 100 PushButtonModel.IntervalPending true))
                [PushButtonModel.FromTimer; PushButtonModel.FromTimer]
                [1%nat; 1%nat] in
  let later := [PushButtonModel.Tick; PushButtonModel.SetEnabled true;
                PushButtonModel.Tick; PushButtonModel.SetDown false;
                PushButtonModel.SetOver false; PushButtonModel.Tick] in
  exists disabled final,
    PushButtonReentrancy.step disablingCode 1 held (PushButtonModel.SetEnabled false)
      = Ok disabled /\
    PushButtonModel.enabled disabled = false /\
    PushButtonModel.timerRunning disabled = false /\
    PushButtonModel.fireLog disabled = PushButtonModel.fireLog held /\
    PushButtonModel.callLog disabled = PushButtonModel.callLog held /\
    PushButtonReentrancy.run disablingCode 1 disabled later = Ok final /\
    PushButtonModel.timerRunning final = false /\
    PushButtonModel.fireLog final = PushButtonModel.fireLog held /\
    PushButtonModel.callLog final = PushButtonModel.callLog held.
Proof.
  apply (disable_from_outside_cancels_hold_fire disablingCode 1
           (PushButtonModel.mkModel holdOptions true true true [1%nat]
              (Some (PushButtonModel.mkTimer 400 100 PushButtonModel.IntervalPending true))
              [PushButtonModel.FromTimer; PushButtonModel.FromTimer]
              [1%nat; 1%nat])
           [PushButtonModel.Tick; PushButtonModel.SetEnabled true;
            PushButtonModel.Tick; PushButtonModel.SetDown false;
            PushButtonModel.SetOver false; PushButtonModel.Tick]).
  - reflexivity.
  - simpl. eexists. reflexivity.
  - reflexivity.
Defined.

Lemma sticky_external_write_sets_down_witness :
  exists m',
    StickyToggleButtonModel.step true 2 stickyUp
      (StickyToggleButtonModel.SetValue "on") = Ok m' /\
    StickyToggleButtonModel.value m' = "on" /\
    StickyToggleButtonModel.down m' = bool_decide ("on" = "on") /\
    ("off" <> "on" ->
     StickyToggleButtonModel.toggles m' = StickyToggleButtonModel.toggles stickyUp).
Proof.
  apply (sticky_external_write_sets_down true 0 stickyUp "on").
  simpl. discriminate.
Defined.

Lemma sticky_toggle_of_unrecognized_value_witness :
  let m := StickyToggleButtonModel.mkModel "off" "on" "standby" true false true true 0 in
  isAssertionFailed
    (StickyToggleButtonModel.step true 2 m StickyToggleButtonModel.Toggle) = true /\
  exists m', StickyToggleButtonModel.step false 2 m StickyToggleButtonModel.Toggle = Ok m' /\
             StickyToggleButtonModel.value m' = "off" /\
             StickyToggleButtonModel.toggles m' <> 0%nat.
Proof.
  split.
  - apply (sticky_toggle_of_unrecognized_value true 0
             (StickyToggleButtonModel.mkModel "off" "on" "standby" true false true true 0));
      simpl; try discriminate; reflexivity.
  - apply (sticky_toggle_of_unrecognized_value false 0
             (StickyToggleButtonModel.mkModel "off" "on" "standby" true false true true 0));
      simpl; try discriminate; reflexivity.
Defined.

Lemma sticky_value_is_the_parity_of_toggles_witness :
  exists m,
    (StickyToggleButtonModel.new true 2 "off" "on" "off" ≫=
       λ m0, StickyToggleButtonModel.run true 2 m0
               (stickyFirstGesture ++ [StickyToggleButtonModel.Toggle])) = Ok m /\
    StickyToggleButtonModel.value m =
      if Nat.even (StickyToggleButtonModel.toggles m) then "off" else "on".
Proof.
  apply (sticky_value_is_the_parity_of_toggles true 0 "off" "on"
           (stickyFirstGesture ++ [StickyToggleButtonModel.Toggle])).
  reflexivity.
Defined.

Lemma hold_fires_once_per_callback_witness :
  let m := PushButtonModel.run sampleBody
             (PushButtonModel.new sampleBody holdOptions)
             [PushButtonModel.SetOver true] in
  PushButtonModel.fireLog
    (PushButtonModel.run sampleBody m
       (Histories.hold 3 ++ [PushButtonModel.SetDown false])) =
  PushButtonModel.fireLog m ++
    [PushButtonModel.FromTimer; PushButtonModel.FromTimer; PushButtonModel.FromTimer].
Proof.
  apply (hold_fires_once_per_callback sampleBody
           (PushButtonModel.run sampleBody
              (PushButtonModel.new sampleBody holdOptions)
              [PushButtonModel.SetOver true])
           (PushButtonModel.mkTimer 400 100 PushButtonModel.Idle false) 3);
    reflexivity.
Defined.

Lemma threeD_button_path_keeps_disabled_stroke_witness :
  (exists p3,
     AppearanceHistories.updates "IDLE" "OVER" "PRESSED" "DISABLED"
       "DISABLED_PRESSED" id RectangularButton.ThreeD RectangularButton.defaultOptions
       (["IDLE"; "OVER"] ++ "DISABLED" :: ["DISABLED_PRESSED"] ++ ["IDLE"]) blank
       = Ok p3 /\
     RectangularButton.nodeStroke (RectangularButton.button p3) =
       RectangularButton.DisabledBaseDarker4 /\
     RectangularButton.nodeStroke (RectangularButton.overlay p3) =
       RectangularButton.BaseDarker4) /\
  (exists pF,
     AppearanceHistories.updates "IDLE" "OVER" "PRESSED" "DISABLED"
       "DISABLED_PRESSED" id RectangularButton.Flat RectangularButton.defaultOptions
       (["IDLE"; "OVER"] ++ "DISABLED" :: ["DISABLED_PRESSED"] ++ ["IDLE"]) blank
       = Ok pF /\
     RectangularButton.nodeStroke (RectangularButton.button pF) =
       RectangularButton.BaseDarker4).
Proof.
  apply (threeD_button_path_keeps_disabled_stroke
           "IDLE" "OVER" "PRESSED" "DISABLED" "DISABLED_PRESSED" id
           RectangularButton.defaultOptions ["IDLE"; "OVER"] ["DISABLED_PRESSED"]
           "DISABLED" "IDLE" blank).
  - unfold RectangularButton.members.
    repeat (apply NoDup_cons_2;
            [rewrite ?not_elem_of_cons; repeat split;
             try discriminate; apply not_elem_of_nil|]).
    apply NoDup_nil_2.
  - unfold RectangularButton.members.
    repeat (apply Forall_cons_2; [rewrite !elem_of_cons; tauto|]).
    apply Forall_nil_2.
  - left.
  - left.
Defined.

End FurtherWitnesses.
